(** * canvas-engine: the fixed-timestep loop, the event handler and the actor

    A shallow embedding of the TypeScript sources
      - [core/engine]        (class [Engine]: start, pause, update, render),
      - [util/EventHandler]  (class [EventHandler]: registry, queue, dispatch),
      - [Objects/Actor]      (class [Actor]: construction, textures, animation
                              states, updates, draw interpolation),
      - [core/gui]           (class [ParameterSection]: parameters, subsections),
    followed by the properties of the specification that concern them and
    by further properties of the code.

    Conventions of the embedding.
      - A JavaScript [number] is an element of a type [num] equipped with the
        operations of the class [Number].  Two instances are given: IEEE-754
        binary64 ([binary64], the arithmetic the engine really runs on) and
        the exact rationals ([Q], in which [floor] and [mod] have their
        textbook meaning).  Integers that are only counted or used as array
        indices are [Z] or [nat].
      - Mutable objects become records, methods become functions from the
        object to the new object.  Calls into collaborators that are not
        part of these sources (canvas context, scenes, the GUI, the host)
        are recorded, in order, in a list of effects.
      - A method that can throw returns a sum, or a completion record that
        also carries the object as the throw left it. *)

From Stdlib Require Import ZArith QArith Qround Qabs Qpower String Bool Lia Lqa SpecFloat List.
Import ListNotations.
Local Open Scope string_scope.
Local Open Scope list_scope.
Local Open Scope Z_scope.

(* ================================================================== *)
(** * Part I. Definitions                                              *)
(* ================================================================== *)

(** ** JavaScript numbers *)

Class Number (num : Type) : Type := {
  of_Z   : Z -> num;            (* an integer literal *)
  nadd   : num -> num -> num;   (* a + b *)
  nsub   : num -> num -> num;   (* a - b *)
  nmul   : num -> num -> num;   (* a * b *)
  ndiv   : num -> num -> num;   (* a / b *)
  nge    : num -> num -> bool;  (* a >= b *)
  nfloor : num -> num;          (* Math.floor(a) *)
  nrem   : num -> num -> num    (* a % b *)
}.

Module Binary64.

Definition prec : Z := 53.
Definition emax : Z := 1024.

Definition b64_of_Z (z : Z) : spec_float := binary_normalize prec emax z 0 false.

(** [Math.floor]: the largest integer below the argument; zeros,
    infinities and NaN are returned as they are. *)
Definition SFfloor (a : spec_float) : spec_float :=
  match a with
  | S754_finite s m e =>
      if 0 <=? e then a
      else binary_normalize prec emax (Z.shiftr (cond_Zopp s (Zpos m)) (- e)) 0 s
  | _ => a
  end.

(** The remainder operator [%]: exact, with the sign of the dividend. *)
Definition SFrem (a b : spec_float) : spec_float :=
  match a, b with
  | S754_nan, _ | _, S754_nan => S754_nan
  | S754_infinity _, _ => S754_nan
  | _, S754_zero _ => S754_nan
  | S754_zero _, _ => a
  | S754_finite _ _ _, S754_infinity _ => a
  | S754_finite sa ma ea, S754_finite _ mb eb =>
      let e := Z.min ea eb in
      let r := Z.rem (Zpos ma * 2 ^ (ea - e)) (Zpos mb * 2 ^ (eb - e)) in
      binary_normalize prec emax (cond_Zopp sa r) e sa
  end.


End Binary64.

#[export] Instance binary64 : Number spec_float := {
  of_Z   := Binary64.b64_of_Z;
  nadd   := SFadd Binary64.prec Binary64.emax;
  nsub   := SFsub Binary64.prec Binary64.emax;
  nmul   := SFmul Binary64.prec Binary64.emax;
  ndiv   := SFdiv Binary64.prec Binary64.emax;
  nge    := fun a b => SFleb b a;
  nfloor := Binary64.SFfloor;
  nrem   := Binary64.SFrem
}.

Module Exact.

Definition Qtrunc (a : Q) : Z := if Qle_bool 0 a then Qfloor a else Qceiling a.


End Exact.

(** Exact arithmetic.  The rationals have no infinity and no NaN: a
    division by zero is [0] here, where JavaScript gives a non-finite
    value. *)
#[export] Instance exact : Number Q := {
  of_Z   := inject_Z;
  nadd   := Qplus;
  nsub   := Qminus;
  nmul   := Qmult;
  ndiv   := Qdiv;
  nge    := fun a b => Qle_bool b a;
  nfloor := fun a => inject_Z (Qfloor a);
  nrem   := fun a b => (a - inject_Z (Exact.Qtrunc (a / b)) * b)%Q
}.

(** [a > b] and [a < b]: what [>=] gives both ways round, so that a
    comparison with NaN is false, as it is for [>=]. *)
Definition ngt {num : Type} `{Number num} (a b : num) : bool :=
  nge a b && negb (nge b a).

Definition nlt {num : Type} `{Number num} (a b : num) : bool := ngt b a.

(** [Math.abs] and [Number.EPSILON], the difference between 1 and the
    next double. *)
Class NumberMath (num : Type) `{Number num} : Type := {
  nabs : num -> num;
  EPSILON : num
}.

#[export] Instance binary64_math : NumberMath spec_float := {
  nabs := SFabs;
  EPSILON := S754_finite false 4503599627370496 (-104)
}.

#[export] Instance exact_math : NumberMath Q := {
  nabs := Qabs;
  EPSILON := Qmake 1 (2 ^ 52)
}.

(** ** Arrays

    The methods of [Array.prototype] the sources call, on lists. *)

Module JSArray.

Section Ops.
Context {A : Type}.

Definition push (a : list A) (v : A) : list A := a ++ [v].

(** [a.indexOf(v)]: the index of the first element strictly equal to
    [v], and [-1] when there is none. *)
Fixpoint indexOf_from (eqb : A -> A -> bool) (a : list A) (v : A) (i : Z) : Z :=
  match a with
  | [] => -1
  | h :: t => if eqb h v then i else indexOf_from eqb t v (i + 1)
  end.

Definition indexOf (eqb : A -> A -> bool) (a : list A) (v : A) : Z :=
  indexOf_from eqb a v 0.

(** [a.splice(start, deleteCount)], the array it leaves behind.  A
    negative [start] counts from the end of the array; both arguments are
    clamped to the array. *)
Definition splice (a : list A) (start deleteCount : Z) : list A :=
  let len := Z.of_nat (length a) in
  let actualStart := if start <? 0 then Z.max (len + start) 0 else Z.min start len in
  let actualDeleteCount := Z.min (Z.max deleteCount 0) (len - actualStart) in
  firstn (Z.to_nat actualStart) a
    ++ skipn (Z.to_nat (actualStart + actualDeleteCount)) a.

(** The elements at the odd indices 1, 3, 5, ... of an array. *)
Fixpoint odd_positions (a : list A) : list A :=
  match a with
  | _ :: b :: t => b :: odd_positions t
  | _ => []
  end.

End Ops.

End JSArray.

(** ** Vectors

    Modelled from the spec: the module [math/vector] is imported by the
    sources but is not among them.  The spec describes an immutable 2-D
    value type whose operations return a new instance; the operations are
    taken componentwise. *)

Module Vector.

Section WithNumber.
Context {num : Type} `{Number num}.

Record Vector : Type := vec { x : num; y : num }.

Definition add (a b : Vector) : Vector := vec (nadd (x a) (x b)) (nadd (y a) (y b)).
Definition sub (a b : Vector) : Vector := vec (nsub (x a) (x b)) (nsub (y a) (y b)).
Definition mult (a : Vector) (k : num) : Vector := vec (nmul (x a) k) (nmul (y a) k).
Definition div (a : Vector) (k : num) : Vector := vec (ndiv (x a) k) (ndiv (y a) k).

End WithNumber.

Arguments Vector num : clear implicits.

End Vector.

(** ** The 2-D canvas context

    The calls the engine and the actors make on a
    [CanvasRenderingContext2D], as data. *)

Module Canvas.

Section WithNumber.
Context {num : Type}.

(** Text handed to [fillText]: a literal, or a label followed by two
    numbers (the template strings of the debug overlay). *)
Inductive Text : Type :=
| Literal (s : string)
| Labelled (label : string) (a b : num).

Inductive Op : Type :=
| setTransform (a b c d e f : num)
| scale (sx sy : num)
| clearRect (px py w h : num)
| fillRect (px py w h : num)
| strokeRect (px py w h : num)
| fillText (t : Text) (px py : num)
| fillStyle (s : string)
| strokeStyle (s : string)
| font (s : string)
| textAlign (s : string)
| save
| restore
| drawImage5 (bitmap : string) (dx dy dw dh : num)
| drawImage9 (bitmap : string) (sx sy sw sh dx dy dw dh : num).

End WithNumber.

Arguments Text num : clear implicits.
Arguments Op num : clear implicits.

End Canvas.

(** ** Maps

    A JavaScript [Map] with string keys: the entries in insertion order,
    keys unique. *)

Module JSMap.

Section Ops.
Context {V : Type}.

Definition t : Type := list (string * V).

Definition has (key : string) (m : t) : bool :=
  existsb (fun kv => String.eqb (fst kv) key) m.

(** [m.set(key, v)]: an existing key keeps its place, a new one goes last. *)
Definition set (key : string) (v : V) (m : t) : t :=
  if has key m
  then map (fun kv => if String.eqb (fst kv) key then (key, v) else kv) m
  else m ++ [(key, v)].

Definition delete (key : string) (m : t) : t :=
  filter (fun kv => negb (String.eqb (fst kv) key)) m.

Definition entries (m : t) : list (string * V) := m.

Definition values (m : t) : list V := map snd m.

(** [new Map(entries)] *)
Definition from_entries (l : list (string * V)) : t :=
  fold_left (fun m kv => set (fst kv) (snd kv) m) l [].

End Ops.

Arguments t V : clear implicits.

End JSMap.

(** ** The engine *)

Module Engine.

Definition TARGET_FPS : Z := 60.
Definition MAX_UPDATES_PER_FRAME : Z := 240.

(** Modelled from the spec: the class [Scene] ([elements/scene]) is
    imported by the engine but is not among the sources.  The spec gives
    it an identifier, the three flags below and a collection of actors;
    its methods [start], [tick] and [render] appear as effects. *)
Record Scene : Type := {
  ID : string;
  name : string;
  isTickEnabled : bool;
  isRenderEnabled : bool;
  isQueuedForDisposal : bool;
  actors_size : Z
}.

(** The value of a call to a function that executes no [return]. *)
Inductive JSVoid : Type := undefined.

Definition truthy (v : JSVoid) : bool := false.

(** Modelled from the spec: [assert] ([util/asserts]) is imported but is
    not among the sources.  A failed contract is reported by a thrown
    error that carries the message. *)
Inductive Error : Type := mkError (message : string).

Definition assert (condition : bool) (message : string) : option Error :=
  if condition then None else Some (mkError message).

Section WithNumber.
Context {num : Type} `{Number num}.

(** What the host page answers when asked: [window.devicePixelRatio] and
    the computed style of the canvas, in pixels. *)
Record Host : Type := {
  devicePixelRatio : num;
  computedWidth : num;
  computedHeight : num
}.

(** What the engine does to its collaborators, as data.  The event
    handler it holds is the singleton of [util/event_handler]
    ([addListener], [queueEvent], [dispatchQueue], [setIsEnginePaused]),
    which is not the class [EventHandler] embedded further down; the
    scenes and the parameter GUI are not embedded either.  None of them
    is taken to write to the engine while it runs a frame. *)
Inductive Effect : Type :=
| requestAnimationFrame
| ctx (op : Canvas.Op num)
| canvasElement_setAttribute (attribute : string) (v : num)
| canvasElement_tabIndex (v : Z)
| canvasElement_focus
| eventHandler_addListener (eventName : string)
| eventHandler_attachEventListeners
| eventHandler_queueEvent_ontick (deltaTime : num)
| eventHandler_queueEvent_onrender (interpolationFactor : num)
| eventHandler_dispatchQueue
| eventHandler_setIsEnginePaused (isPaused : bool)
| scene_start (sceneID : string)
| scene_tick (sceneID : string) (deltaTime : num)
| scene_render (sceneID : string) (interpolationFactor : num)
| parameterGUI_render
| render_called (interpolationFactor : num).

Record Engine : Type := {
  scenes : JSMap.t Scene;
  preloadedActorCount : Z;
  _canvasSize : Vector.Vector num;
  _engineRuntimeMilliseconds : num;
  _engineStartTimestamp : num;
  _FPS : num;
  _isPaused : bool;
  isStarted : bool;
  isPreloaded : bool;
  totalActorCount : Z;
  lag : num;
  maxUpdatesPerFrame : Z;
  previousUpdateTimestamp : num;
  targetTickDurationMilliseconds : num;
  updatesSinceEngineStart : Z;
  canvasScale : num
}.

Definition isPaused (e : Engine) : bool := _isPaused e.
Definition canvasSize (e : Engine) : Vector.Vector num := _canvasSize e.

(** Assignments to one field. *)

Definition set_scenes (v : JSMap.t Scene) (e : Engine) : Engine :=
  {| scenes := v; preloadedActorCount := preloadedActorCount e;
     _canvasSize := _canvasSize e;
     _engineRuntimeMilliseconds := _engineRuntimeMilliseconds e;
     _engineStartTimestamp := _engineStartTimestamp e; _FPS := _FPS e;
     _isPaused := _isPaused e; isStarted := isStarted e;
     isPreloaded := isPreloaded e; totalActorCount := totalActorCount e;
     lag := lag e; maxUpdatesPerFrame := maxUpdatesPerFrame e;
     previousUpdateTimestamp := previousUpdateTimestamp e;
     targetTickDurationMilliseconds := targetTickDurationMilliseconds e;
     updatesSinceEngineStart := updatesSinceEngineStart e;
     canvasScale := canvasScale e |}.

Definition set_canvasSize (v : Vector.Vector num) (e : Engine) : Engine :=
  {| scenes := scenes e; preloadedActorCount := preloadedActorCount e;
     _canvasSize := v;
     _engineRuntimeMilliseconds := _engineRuntimeMilliseconds e;
     _engineStartTimestamp := _engineStartTimestamp e; _FPS := _FPS e;
     _isPaused := _isPaused e; isStarted := isStarted e;
     isPreloaded := isPreloaded e; totalActorCount := totalActorCount e;
     lag := lag e; maxUpdatesPerFrame := maxUpdatesPerFrame e;
     previousUpdateTimestamp := previousUpdateTimestamp e;
     targetTickDurationMilliseconds := targetTickDurationMilliseconds e;
     updatesSinceEngineStart := updatesSinceEngineStart e;
     canvasScale := canvasScale e |}.

Definition set_engineRuntimeMilliseconds (v : num) (e : Engine) : Engine :=
  {| scenes := scenes e; preloadedActorCount := preloadedActorCount e;
     _canvasSize := _canvasSize e; _engineRuntimeMilliseconds := v;
     _engineStartTimestamp := _engineStartTimestamp e; _FPS := _FPS e;
     _isPaused := _isPaused e; isStarted := isStarted e;
     isPreloaded := isPreloaded e; totalActorCount := totalActorCount e;
     lag := lag e; maxUpdatesPerFrame := maxUpdatesPerFrame e;
     previousUpdateTimestamp := previousUpdateTimestamp e;
     targetTickDurationMilliseconds := targetTickDurationMilliseconds e;
     updatesSinceEngineStart := updatesSinceEngineStart e;
     canvasScale := canvasScale e |}.

Definition set_engineStartTimestamp (v : num) (e : Engine) : Engine :=
  {| scenes := scenes e; preloadedActorCount := preloadedActorCount e;
     _canvasSize := _canvasSize e;
     _engineRuntimeMilliseconds := _engineRuntimeMilliseconds e;
     _engineStartTimestamp := v; _FPS := _FPS e; _isPaused := _isPaused e;
     isStarted := isStarted e; isPreloaded := isPreloaded e;
     totalActorCount := totalActorCount e; lag := lag e;
     maxUpdatesPerFrame := maxUpdatesPerFrame e;
     previousUpdateTimestamp := previousUpdateTimestamp e;
     targetTickDurationMilliseconds := targetTickDurationMilliseconds e;
     updatesSinceEngineStart := updatesSinceEngineStart e;
     canvasScale := canvasScale e |}.

Definition set_FPS (v : num) (e : Engine) : Engine :=
  {| scenes := scenes e; preloadedActorCount := preloadedActorCount e;
     _canvasSize := _canvasSize e;
     _engineRuntimeMilliseconds := _engineRuntimeMilliseconds e;
     _engineStartTimestamp := _engineStartTimestamp e; _FPS := v;
     _isPaused := _isPaused e; isStarted := isStarted e;
     isPreloaded := isPreloaded e; totalActorCount := totalActorCount e;
     lag := lag e; maxUpdatesPerFrame := maxUpdatesPerFrame e;
     previousUpdateTimestamp := previousUpdateTimestamp e;
     targetTickDurationMilliseconds := targetTickDurationMilliseconds e;
     updatesSinceEngineStart := updatesSinceEngineStart e;
     canvasScale := canvasScale e |}.

Definition set_isPaused (v : bool) (e : Engine) : Engine :=
  {| scenes := scenes e; preloadedActorCount := preloadedActorCount e;
     _canvasSize := _canvasSize e;
     _engineRuntimeMilliseconds := _engineRuntimeMilliseconds e;
     _engineStartTimestamp := _engineStartTimestamp e; _FPS := _FPS e;
     _isPaused := v; isStarted := isStarted e; isPreloaded := isPreloaded e;
     totalActorCount := totalActorCount e; lag := lag e;
     maxUpdatesPerFrame := maxUpdatesPerFrame e;
     previousUpdateTimestamp := previousUpdateTimestamp e;
     targetTickDurationMilliseconds := targetTickDurationMilliseconds e;
     updatesSinceEngineStart := updatesSinceEngineStart e;
     canvasScale := canvasScale e |}.

Definition set_isStarted (v : bool) (e : Engine) : Engine :=
  {| scenes := scenes e; preloadedActorCount := preloadedActorCount e;
     _canvasSize := _canvasSize e;
     _engineRuntimeMilliseconds := _engineRuntimeMilliseconds e;
     _engineStartTimestamp := _engineStartTimestamp e; _FPS := _FPS e;
     _isPaused := _isPaused e; isStarted := v; isPreloaded := isPreloaded e;
     totalActorCount := totalActorCount e; lag := lag e;
     maxUpdatesPerFrame := maxUpdatesPerFrame e;
     previousUpdateTimestamp := previousUpdateTimestamp e;
     targetTickDurationMilliseconds := targetTickDurationMilliseconds e;
     updatesSinceEngineStart := updatesSinceEngineStart e;
     canvasScale := canvasScale e |}.

Definition set_isPreloaded (v : bool) (e : Engine) : Engine :=
  {| scenes := scenes e; preloadedActorCount := preloadedActorCount e;
     _canvasSize := _canvasSize e;
     _engineRuntimeMilliseconds := _engineRuntimeMilliseconds e;
     _engineStartTimestamp := _engineStartTimestamp e; _FPS := _FPS e;
     _isPaused := _isPaused e; isStarted := isStarted e; isPreloaded := v;
     totalActorCount := totalActorCount e; lag := lag e;
     maxUpdatesPerFrame := maxUpdatesPerFrame e;
     previousUpdateTimestamp := previousUpdateTimestamp e;
     targetTickDurationMilliseconds := targetTickDurationMilliseconds e;
     updatesSinceEngineStart := updatesSinceEngineStart e;
     canvasScale := canvasScale e |}.

Definition set_totalActorCount (v : Z) (e : Engine) : Engine :=
  {| scenes := scenes e; preloadedActorCount := preloadedActorCount e;
     _canvasSize := _canvasSize e;
     _engineRuntimeMilliseconds := _engineRuntimeMilliseconds e;
     _engineStartTimestamp := _engineStartTimestamp e; _FPS := _FPS e;
     _isPaused := _isPaused e; isStarted := isStarted e;
     isPreloaded := isPreloaded e; totalActorCount := v; lag := lag e;
     maxUpdatesPerFrame := maxUpdatesPerFrame e;
     previousUpdateTimestamp := previousUpdateTimestamp e;
     targetTickDurationMilliseconds := targetTickDurationMilliseconds e;
     updatesSinceEngineStart := updatesSinceEngineStart e;
     canvasScale := canvasScale e |}.

Definition set_lag (v : num) (e : Engine) : Engine :=
  {| scenes := scenes e; preloadedActorCount := preloadedActorCount e;
     _canvasSize := _canvasSize e;
     _engineRuntimeMilliseconds := _engineRuntimeMilliseconds e;
     _engineStartTimestamp := _engineStartTimestamp e; _FPS := _FPS e;
     _isPaused := _isPaused e; isStarted := isStarted e;
     isPreloaded := isPreloaded e; totalActorCount := totalActorCount e;
     lag := v; maxUpdatesPerFrame := maxUpdatesPerFrame e;
     previousUpdateTimestamp := previousUpdateTimestamp e;
     targetTickDurationMilliseconds := targetTickDurationMilliseconds e;
     updatesSinceEngineStart := updatesSinceEngineStart e;
     canvasScale := canvasScale e |}.

Definition set_previousUpdateTimestamp (v : num) (e : Engine) : Engine :=
  {| scenes := scenes e; preloadedActorCount := preloadedActorCount e;
     _canvasSize := _canvasSize e;
     _engineRuntimeMilliseconds := _engineRuntimeMilliseconds e;
     _engineStartTimestamp := _engineStartTimestamp e; _FPS := _FPS e;
     _isPaused := _isPaused e; isStarted := isStarted e;
     isPreloaded := isPreloaded e; totalActorCount := totalActorCount e;
     lag := lag e; maxUpdatesPerFrame := maxUpdatesPerFrame e;
     previousUpdateTimestamp := v;
     targetTickDurationMilliseconds := targetTickDurationMilliseconds e;
     updatesSinceEngineStart := updatesSinceEngineStart e;
     canvasScale := canvasScale e |}.

Definition set_updatesSinceEngineStart (v : Z) (e : Engine) : Engine :=
  {| scenes := scenes e; preloadedActorCount := preloadedActorCount e;
     _canvasSize := _canvasSize e;
     _engineRuntimeMilliseconds := _engineRuntimeMilliseconds e;
     _engineStartTimestamp := _engineStartTimestamp e; _FPS := _FPS e;
     _isPaused := _isPaused e; isStarted := isStarted e;
     isPreloaded := isPreloaded e; totalActorCount := totalActorCount e;
     lag := lag e; maxUpdatesPerFrame := maxUpdatesPerFrame e;
     previousUpdateTimestamp := previousUpdateTimestamp e;
     targetTickDurationMilliseconds := targetTickDurationMilliseconds e;
     updatesSinceEngineStart := v; canvasScale := canvasScale e |}.

Definition set_canvasScale (v : num) (e : Engine) : Engine :=
  {| scenes := scenes e; preloadedActorCount := preloadedActorCount e;
     _canvasSize := _canvasSize e;
     _engineRuntimeMilliseconds := _engineRuntimeMilliseconds e;
     _engineStartTimestamp := _engineStartTimestamp e; _FPS := _FPS e;
     _isPaused := _isPaused e; isStarted := isStarted e;
     isPreloaded := isPreloaded e; totalActorCount := totalActorCount e;
     lag := lag e; maxUpdatesPerFrame := maxUpdatesPerFrame e;
     previousUpdateTimestamp := previousUpdateTimestamp e;
     targetTickDurationMilliseconds := targetTickDurationMilliseconds e;
     updatesSinceEngineStart := updatesSinceEngineStart e; canvasScale := v |}.
(** [fixDPI]: returns the normalized canvas size. *)
Definition fixDPI (host : Host) (e : Engine)
  : Vector.Vector num * Engine * list Effect :=
  let e := set_canvasScale (devicePixelRatio host) e in
  let width := nmul (computedWidth host) (canvasScale e) in
  let height := nmul (computedHeight host) (canvasScale e) in
  (Vector.vec width height, e,
   [canvasElement_setAttribute "width" width;
    canvasElement_setAttribute "height" height]).

(** The field initialisers followed by the constructor body. *)
Definition new_Engine (host : Host) : Engine * list Effect :=
  let e :=
    {| scenes := []; preloadedActorCount := 0;
       _canvasSize := Vector.vec (of_Z 0) (of_Z 0);
       _engineRuntimeMilliseconds := of_Z 0; _engineStartTimestamp := of_Z 0;
       _FPS := of_Z 0; _isPaused := false; isStarted := false;
       isPreloaded := false; totalActorCount := 0; lag := of_Z 0;
       maxUpdatesPerFrame := MAX_UPDATES_PER_FRAME;
       previousUpdateTimestamp := of_Z 0;
       targetTickDurationMilliseconds := ndiv (of_Z 1000) (of_Z TARGET_FPS);
       updatesSinceEngineStart := 0; canvasScale := of_Z 1 |} in
  let '(size, e, t) := fixDPI host e in
  (set_canvasSize size e, t).

Definition updatePauseState (isPaused : bool) (e : Engine) : Engine * list Effect :=
  (set_isPaused isPaused e, [eventHandler_setIsEnginePaused isPaused]).

Definition pause (e : Engine) : Engine * list Effect := updatePauseState true e.

Definition resume (e : Engine) : Engine * list Effect := updatePauseState false e.

Definition removeScene (scene : Scene) (e : Engine) : Engine * JSVoid :=
  (set_scenes (JSMap.delete (ID scene) (scenes e)) e, undefined).

Definition renderPreloadScreen (e : Engine) : list Effect :=
  let cx := ndiv (Vector.x (canvasSize e)) (of_Z 2) in
  let cy := ndiv (Vector.y (canvasSize e)) (of_Z 2) in
  map ctx
    [Canvas.fillStyle "black";
     Canvas.fillRect (of_Z 0) (of_Z 0) (Vector.x (canvasSize e)) (Vector.y (canvasSize e));
     Canvas.font "30px monospace";
     Canvas.textAlign "center";
     Canvas.fillStyle "white";
     Canvas.fillText (Canvas.Literal "LOADING...") cx cy;
     Canvas.strokeStyle "white";
     Canvas.strokeRect (nsub cx (of_Z 200)) (nadd cy (of_Z 32)) (of_Z 400) (of_Z 16);
     Canvas.fillRect (nsub cx (of_Z 200)) (nadd cy (of_Z 32))
       (ndiv (nmul (of_Z 400) (of_Z (preloadedActorCount e))) (of_Z (totalActorCount e)))
       (of_Z 16)].

(** [render]: the engine itself is left as it is; the first effect
    records the call and its argument. *)
Definition render (interpolationFactor : num) (e : Engine) : list Effect :=
  [render_called interpolationFactor;
   ctx (Canvas.setTransform (of_Z 1) (of_Z 0) (of_Z 0) (of_Z 1) (of_Z 0) (of_Z 0));
   ctx (Canvas.scale (canvasScale e) (canvasScale e))]
  ++ (if negb (isPreloaded e) then renderPreloadScreen e else [])
  ++ (if _isPaused e || negb (isPreloaded e) then []
      else
        [ctx (Canvas.clearRect (of_Z 0) (of_Z 0)
                (Vector.x (_canvasSize e)) (Vector.y (_canvasSize e)))]
        ++ map (fun scene => scene_render (ID scene) interpolationFactor)
             (filter isRenderEnabled (JSMap.values (scenes e)))
        ++ [eventHandler_queueEvent_onrender interpolationFactor;
            parameterGUI_render]).

(** The body of one iteration of the tick loop, up to the decrement. *)
Definition tick_effects (e : Engine) : list Effect :=
  [eventHandler_queueEvent_ontick (targetTickDurationMilliseconds e)]
  ++ map (fun scene => scene_tick (ID scene) (targetTickDurationMilliseconds e))
       (filter isTickEnabled (JSMap.values (scenes e)))
  ++ [eventHandler_dispatchQueue].

(** The [while] loop of [update].  [cycleUpdateCount] is the local
    counter; [None] means that [fuel] iterations were not enough. *)
Fixpoint tickLoop (fuel : nat) (e : Engine) (cycleUpdateCount : Z)
  : option (Engine * Z * list Effect) :=
  if nge (lag e) (targetTickDurationMilliseconds e) && negb (isPaused e) then
    match fuel with
    | O => None
    | S fuel' =>
        let t := tick_effects e in
        let e := set_lag (nsub (lag e) (targetTickDurationMilliseconds e)) e in
        let e := set_updatesSinceEngineStart (updatesSinceEngineStart e + 1) e in
        let cycleUpdateCount := cycleUpdateCount + 1 in
        if cycleUpdateCount >=? maxUpdatesPerFrame e then
          Some (set_lag (of_Z 0) e, cycleUpdateCount, t)
        else
          match tickLoop fuel' e cycleUpdateCount with
          | Some (e', c', t') => Some (e', c', t ++ t')
          | None => None
          end
    end
  else Some (e, cycleUpdateCount, []).

(** The filter of the disposal sweep, entry by entry: its callback is
    [!(scene.isQueuedForDisposal && this.removeScene(scene))]. *)
Fixpoint sweep_filter (entries : list (string * Scene)) (e : Engine)
  : list (string * Scene) * Engine :=
  match entries with
  | [] => ([], e)
  | (key, scene) :: rest =>
      let '(conjunction, e) :=
        if isQueuedForDisposal scene
        then let '(e, r) := removeScene scene e in (truthy r, e)
        else (false, e) in
      let '(kept, e) := sweep_filter rest e in
      (if negb conjunction then (key, scene) :: kept else kept, e)
  end.

Definition sweep (e : Engine) : Engine :=
  let '(kept, e) := sweep_filter (JSMap.entries (scenes e)) e in
  set_scenes (JSMap.from_entries kept) e.

(** The loop leaves through its breaker after at most
    [maxUpdatesPerFrame] iterations, and after one when that bound is not
    positive. *)
Definition update_fuel (e : Engine) : nat := Z.to_nat (Z.max 1 (maxUpdatesPerFrame e)).

Definition update (timestamp : num) (e : Engine) : option (Engine * list Effect) :=
  if negb (isPreloaded e) then
    Some (e, [requestAnimationFrame] ++ render (of_Z 0) e)
  else
    let delta := nsub timestamp (previousUpdateTimestamp e) in
    let e := set_previousUpdateTimestamp timestamp e in
    let e := set_lag (nadd (lag e) delta) e in
    let e := set_engineRuntimeMilliseconds (nadd (_engineRuntimeMilliseconds e) delta) e in
    let e := set_FPS (ndiv (of_Z 1000) delta) e in
    match tickLoop (update_fuel e) e 0 with
    | None => None
    | Some (e, _, ticks) =>
        let t := render (ndiv (lag e) (targetTickDurationMilliseconds e)) e in
        Some (sweep e, [requestAnimationFrame] ++ ticks ++ t)
    end.

(** [start] is an [async] function.  [start_prologue] runs up to its
    [await]; [start_epilogue] is the continuation, run once every scene
    has finished preloading, [now] being what [performance.now()]
    answers then. *)
Definition start_prologue (host : Host) (e : Engine)
  : Error + Engine * list Effect :=
  match assert (negb (isStarted e)) "Engine has already been started." with
  | Some err => inl err
  | None =>
      let '(_, e, t) := fixDPI host e in
      let e :=
        set_totalActorCount
          (fold_left (fun acc scene => acc + actors_size scene)
             (JSMap.values (scenes e)) 0) e in
      inr (e,
           t ++ [canvasElement_tabIndex (-1);
                 canvasElement_focus;
                 eventHandler_addListener "onresize";
                 eventHandler_addListener "onmousedown";
                 requestAnimationFrame]
             ++ map (fun scene => scene_start (ID scene)) (JSMap.values (scenes e)))
  end.

Definition start_epilogue (now : num) (e : Engine) : Engine * list Effect :=
  let e := set_isPreloaded true e in
  let e := set_isStarted true e in
  let e := set_engineStartTimestamp now e in
  let '(e, t) := updatePauseState false e in
  (e, [eventHandler_attachEventListeners] ++ t).

(** A call of [start] whose promise settles before anything else touches
    the engine. *)
Definition start (host : Host) (now : num) (e : Engine)
  : Error + Engine * list Effect :=
  match start_prologue host e with
  | inl err => inl err
  | inr (e, t) => let '(e, t') := start_epilogue now e in inr (e, t ++ t')
  end.

(** The ticks of a frame: one [ontick] event is queued per iteration. *)
Definition isTick (ef : Effect) : bool :=
  match ef with eventHandler_queueEvent_ontick _ => true | _ => false end.

Definition tickCount (t : list Effect) : Z := Z.of_nat (length (filter isTick t)).



(** The engine after the two assignments of one loop iteration. *)
Definition ticked (e : Engine) : Engine :=
  set_updatesSinceEngineStart (updatesSinceEngineStart e + 1)
    (set_lag (nsub (lag e) (targetTickDurationMilliseconds e)) e).

(** What the tick loop never assigns. *)
Definition same_setup (e e' : Engine) : Prop :=
  scenes e' = scenes e /\ isStarted e' = isStarted e /\ isPreloaded e' = isPreloaded e
  /\ _isPaused e' = _isPaused e
  /\ maxUpdatesPerFrame e' = maxUpdatesPerFrame e
  /\ targetTickDurationMilliseconds e' = targetTickDurationMilliseconds e
  /\ canvasScale e' = canvasScale e /\ _canvasSize e' = _canvasSize e.

(** Equal in every field other than [scenes]. *)
Definition same_but_scenes (e e' : Engine) : Prop :=
  preloadedActorCount e' = preloadedActorCount e
  /\ _canvasSize e' = _canvasSize e
  /\ _engineRuntimeMilliseconds e' = _engineRuntimeMilliseconds e
  /\ _engineStartTimestamp e' = _engineStartTimestamp e
  /\ _FPS e' = _FPS e /\ _isPaused e' = _isPaused e
  /\ isStarted e' = isStarted e /\ isPreloaded e' = isPreloaded e
  /\ totalActorCount e' = totalActorCount e /\ lag e' = lag e
  /\ maxUpdatesPerFrame e' = maxUpdatesPerFrame e
  /\ previousUpdateTimestamp e' = previousUpdateTimestamp e
  /\ targetTickDurationMilliseconds e' = targetTickDurationMilliseconds e
  /\ updatesSinceEngineStart e' = updatesSinceEngineStart e
  /\ canvasScale e' = canvasScale e.

(** What can happen to a started engine: an animation frame, [pause],
    [resume]. *)
Inductive Call : Type :=
| call_update (timestamp : num)
| call_pause
| call_resume.

Fixpoint run (calls : list Call) (e : Engine) : option Engine :=
  match calls with
  | [] => Some e
  | call_update timestamp :: rest =>
      match update timestamp e with
      | Some (e, _) => run rest e
      | None => None
      end
  | call_pause :: rest => run rest (fst (pause e))
  | call_resume :: rest => run rest (fst (resume e))
  end.

End WithNumber.

Arguments Host num : clear implicits.
Arguments Effect num : clear implicits.
Arguments Engine num : clear implicits.
Arguments Call num : clear implicits.

End Engine.

(** ** The event handler

    The class of [util/EventHandler.ts]: the registry of callbacks, the
    queues of payloads and the predicate installed by
    [setEnginePauseStateCallback].  The listeners it attaches to the
    canvas only build a payload and call [queueEvent]; attaching and
    detaching them is not embedded. *)

Module EventHandler.

(** The keys of [EngineEventHandlersEventMap]. *)
Inductive EventType : Type :=
| onmousedown | whilemousedown | onmouseup | onmousemove
| onkeydown | whilekeydown | onkeyup
| onresize | ontick | onrender.

Scheme Equality for EventType.

(** The own keys of [callbackRegistry] and of [queuedEventPayloads], in
    the order in which [for ... in] and [Object.keys] visit them. *)
Definition keys : list EventType :=
  [onmousedown; whilemousedown; onmouseup; onmousemove;
   onkeydown; whilekeydown; onkeyup; onresize; ontick; onrender].

(** The two level-triggered types. *)
Definition isLevelTriggered (t : EventType) : bool :=
  match t with whilemousedown | whilekeydown => true | _ => false end.

(** A callback is known by its reference; references are numbered. *)
Definition Callback : Type := nat.

(** [a !== b] on values that are a primitive or [undefined]. *)
Definition strict_ne {A : Type} (eqb : A -> A -> bool) (a b : option A) : bool :=
  match a, b with
  | Some u, Some v => negb (eqb u v)
  | None, None => false
  | _, _ => true
  end.

Section WithNumber.
Context {num : Type}.

(** A payload object: the properties the payload types declare, each
    absent ([undefined]) or present. *)
Record Payload : Type := {
  type : option EventType;
  button : option Z;
  x : option num;
  y : option num;
  key : option string;
  width : option num;
  height : option num;
  deltaTime : option num;
  interpolationFactor : option num
}.

(** [{...payload, type: t}] *)
Definition with_type (t : EventType) (payload : Payload) : Payload :=
  {| type := Some t; button := button payload; x := x payload; y := y payload;
     key := key payload; width := width payload; height := height payload;
     deltaTime := deltaTime payload;
     interpolationFactor := interpolationFactor payload |}.

(** [enginePauseStateCallback] is a function without parameters that
    reads the engine; the handler holds what it answers at present. *)
Record EventHandler : Type := {
  callbackRegistry : EventType -> list Callback;
  queuedEventPayloads : EventType -> list Payload;
  enginePauseStateCallback : unit -> bool
}.

(** Assignment to one property of an object keyed by event type. *)
Definition assign {V : Type} (o : EventType -> V) (t : EventType) (v : V)
  : EventType -> V :=
  fun t' => if EventType_beq t' t then v else o t'.

Definition set_callbackRegistry (r : EventType -> list Callback) (h : EventHandler)
  : EventHandler :=
  {| callbackRegistry := r;
     queuedEventPayloads := queuedEventPayloads h;
     enginePauseStateCallback := enginePauseStateCallback h |}.

Definition set_queuedEventPayloads (q : EventType -> list Payload) (h : EventHandler)
  : EventHandler :=
  {| callbackRegistry := callbackRegistry h;
     queuedEventPayloads := q;
     enginePauseStateCallback := enginePauseStateCallback h |}.

Definition new_EventHandler : EventHandler :=
  {| callbackRegistry := fun _ => [];
     queuedEventPayloads := fun _ => [];
     enginePauseStateCallback := fun _ => false |}.

Definition setEnginePauseStateCallback (callback : unit -> bool) (h : EventHandler)
  : EventHandler :=
  {| callbackRegistry := callbackRegistry h;
     queuedEventPayloads := queuedEventPayloads h;
     enginePauseStateCallback := callback |}.

Definition getRegisteredCallbacks (t : EventType) (h : EventHandler) : list Callback :=
  callbackRegistry h t.

Definition getQueuedPayloads (t : EventType) (h : EventHandler) : list Payload :=
  queuedEventPayloads h t.

Definition registerEventCallback (t : EventType) (callback : Callback) (h : EventHandler)
  : EventHandler :=
  set_callbackRegistry
    (assign (callbackRegistry h) t (JSArray.push (callbackRegistry h t) callback)) h.

Definition unregisterEventCallback (t : EventType) (callback : Callback) (h : EventHandler)
  : EventHandler :=
  set_callbackRegistry
    (assign (callbackRegistry h) t
       (JSArray.splice (callbackRegistry h t)
          (JSArray.indexOf Nat.eqb (callbackRegistry h t) callback) 1)) h.

(** [this.queuedEventPayloads[t].push(payload)] *)
Definition enqueue (t : EventType) (payload : Payload) (h : EventHandler) : EventHandler :=
  set_queuedEventPayloads
    (assign (queuedEventPayloads h) t (JSArray.push (queuedEventPayloads h t) payload)) h.

Definition queueEvent (t : EventType) (payload : Payload) (h : EventHandler)
  : EventHandler :=
  if negb (enginePauseStateCallback h tt) then h
  else
    match t with
    | onmousedown =>
        let h := enqueue t payload h in
        enqueue whilemousedown (with_type whilemousedown payload) h
    | onmouseup =>
        let h := enqueue t payload h in
        set_queuedEventPayloads
          (assign (queuedEventPayloads h) whilemousedown
             (filter (fun event => strict_ne Z.eqb (button event) (button payload))
                (queuedEventPayloads h whilemousedown))) h
    | onkeydown =>
        let h := enqueue t payload h in
        enqueue whilekeydown (with_type whilekeydown payload) h
    | onkeyup =>
        let h := enqueue t payload h in
        set_queuedEventPayloads
          (assign (queuedEventPayloads h) whilekeydown
             (filter (fun event => strict_ne String.eqb (key event) (key payload))
                (queuedEventPayloads h whilekeydown))) h
    | _ => enqueue t payload h
    end.

(** One call [callback(payload)] made by the dispatch. *)
Definition Invocation : Type := Callback * Payload.

(** [registeredCallbacks.forEach(callback =>
       queuedPayloads.forEach(payload => callback(payload)))] *)
Definition invocations (registeredCallbacks : list Callback)
  (queuedPayloads : list Payload) : list Invocation :=
  flat_map (fun callback => map (fun payload => (callback, payload)) queuedPayloads)
    registeredCallbacks.

(** The inner [for] loop of [dispatchQueue], from index [i] on; the
    array is spliced in place and its length read again at each test.
    [None] means that [fuel] iterations were not enough. *)
Fixpoint clear_loop (fuel : nat) (t : EventType) (i : Z) (queuedPayloads : list Payload)
  : option (list Payload) :=
  if i <? Z.of_nat (length queuedPayloads) then
    match fuel with
    | O => None
    | S fuel' =>
        if EventType_beq t whilemousedown || EventType_beq t whilekeydown
        then clear_loop fuel' t (i + 1) queuedPayloads
        else clear_loop fuel' t (i + 1) (JSArray.splice queuedPayloads i 1)
    end
  else Some queuedPayloads.

(** The body of the outer loop for one event type.  Callbacks are opaque:
    a call is recorded and leaves the handler as it is. *)
Definition dispatch_type (t : EventType) (h : EventHandler)
  : option (EventHandler * list Invocation) :=
  let registeredCallbacks := callbackRegistry h t in
  let queuedPayloads := queuedEventPayloads h t in
  match clear_loop (length queuedPayloads) t 0 queuedPayloads with
  | None => None
  | Some rest =>
      Some (set_queuedEventPayloads (assign (queuedEventPayloads h) t rest) h,
            invocations registeredCallbacks queuedPayloads)
  end.

Fixpoint dispatch_types (ts : list EventType) (h : EventHandler)
  : option (EventHandler * list (EventType * list Invocation)) :=
  match ts with
  | [] => Some (h, [])
  | t :: ts' =>
      match dispatch_type t h with
      | None => None
      | Some (h, calls) =>
          match dispatch_types ts' h with
          | None => None
          | Some (h, log) => Some (h, (t, calls) :: log)
          end
      end
  end.

(** [dispatchQueue]: the handler afterwards and, per event type in the
    order visited, the calls made. *)
Definition dispatchQueue (h : EventHandler)
  : option (EventHandler * list (EventType * list Invocation)) :=
  dispatch_types keys h.

(** Events queued one after the other. *)
Fixpoint queueEvents (events : list (EventType * Payload)) (h : EventHandler)
  : EventHandler :=
  match events with
  | [] => h
  | (t, payload) :: rest => queueEvents rest (queueEvent t payload h)
  end.

(** The payload is for key [k]. *)
Definition carriesKey (k : string) (payload : Payload) : bool :=
  negb (strict_ne String.eqb (key payload) (Some k)).

(** The event is an [onkeyup] for key [k]. *)
Definition releasesKey (k : string) (event : EventType * Payload) : bool :=
  EventType_beq (fst event) onkeyup && carriesKey k (snd event).

(** The event puts an entry for key [k] in the [whilekeydown] queue: an
    [onkeydown] for [k], or a [whilekeydown] for [k] queued as such. *)
Definition pressesKey (k : string) (event : EventType * Payload) : bool :=
  (EventType_beq (fst event) onkeydown || EventType_beq (fst event) whilekeydown)
  && carriesKey k (snd event).

(** How many entries of a queue carry the key [k], the button [b]. *)
Definition held (k : string) (q : list Payload) : nat :=
  length (filter (carriesKey k) q).

(** The part of [destroy] that concerns the registry and the queues. *)
Definition destroy (h : EventHandler) : EventHandler :=
  fold_left
    (fun h t =>
       let h := set_callbackRegistry (assign (callbackRegistry h) t []) h in
       set_queuedEventPayloads (assign (queuedEventPayloads h) t []) h)
    keys h.

(** [n] calls of [dispatchQueue] with nothing queued in between. *)
Fixpoint dispatchQueue_times (n : nat) (h : EventHandler) : option (EventHandler) :=
  match n with
  | O => Some h
  | S n' =>
      match dispatchQueue h with
      | Some (h', _) => dispatchQueue_times n' h'
      | None => None
      end
  end.

(** What the listeners read from a DOM event. *)
Record MouseEvent : Type := { event_button : Z; offsetX : num; offsetY : num }.
Record KeyboardEvent : Type := { event_key : string }.

Inductive DOMEvent : Type :=
| mousedown (event : MouseEvent)
| mouseup (event : MouseEvent)
| mousemove (event : MouseEvent)
| keydown (event : KeyboardEvent)
| keyup (event : KeyboardEvent)
| resize (contentRect_width contentRect_height : num).

Definition mousePayload (t : EventType) (event : MouseEvent) : Payload :=
  {| type := Some t; button := Some (event_button event);
     x := Some (offsetX event); y := Some (offsetY event);
     key := None; width := None; height := None;
     deltaTime := None; interpolationFactor := None |}.

Definition keyPayload (t : EventType) (event : KeyboardEvent) : Payload :=
  {| type := Some t; button := None; x := None; y := None;
     key := Some (event_key event); width := None; height := None;
     deltaTime := None; interpolationFactor := None |}.

Definition resizePayload (w h : num) : Payload :=
  {| type := Some onresize; button := None; x := None; y := None;
     key := None; width := Some w; height := Some h;
     deltaTime := None; interpolationFactor := None |}.

(** The listeners of [canvasEventHandlerMap] and the callback of the
    [ResizeObserver], by the event they are attached to. *)
Definition canvasEventHandler (event : DOMEvent) (h : EventHandler) : EventHandler :=
  match event with
  | mousedown event => queueEvent onmousedown (mousePayload onmousedown event) h
  | mouseup event => queueEvent onmouseup (mousePayload onmouseup event) h
  | mousemove event => queueEvent onmousemove (mousePayload onmousemove event) h
  | keydown event => queueEvent onkeydown (keyPayload onkeydown event) h
  | keyup event => queueEvent onkeyup (keyPayload onkeyup event) h
  | resize w h' => queueEvent onresize (resizePayload w h') h
  end.

(** The payload is for button [b]. *)
Definition carriesButton (b : Z) (payload : Payload) : bool :=
  negb (strict_ne Z.eqb (button payload) (Some b)).

End WithNumber.

Arguments Payload num : clear implicits.
Arguments EventHandler num : clear implicits.
Arguments Invocation num : clear implicits.
Arguments MouseEvent num : clear implicits.
Arguments DOMEvent num : clear implicits.

End EventHandler.

(** ** Actors *)

Module Actor.

(** A plain object used as a dictionary with string keys. *)
Definition lookup {V : Type} (o : list (string * V)) (k : string) : option V :=
  match find (fun kv => String.eqb (fst kv) k) o with
  | Some kv => Some (snd kv)
  | None => None
  end.

(** A string in a condition: the empty string is falsy. *)
Definition truthy (s : string) : bool := negb (String.eqb s "").

Section WithNumber.
Context {num : Type} `{Number num}.

Record AnimationKeyframe : Type := { index : Z; duration : num }.

Record AnimationState : Type := {
  animation_textureID : string;      (* [textureID] of the animation state *)
  frames : list AnimationKeyframe
}.

(** An [ImageBitmap]: a name for the pixels, and its dimensions. *)
Record ImageBitmap : Type := { bitmap : string; width : num; height : num }.

Record Texture : Type := {
  imageBitmap : ImageBitmap;
  spriteSize : Vector.Vector num;
  frameCount : Z
}.

Record AnimationManager : Type := {
  animations : list (string * AnimationState);
  animationID : string;
  animationFrame : nat;
  deltaSum : num
}.

Record TextureManager : Type := {
  textures : list (string * Texture);
  textureID : string;
  textureOffset : Vector.Vector num
}.

(** The user-defined functions [draw] and [update] are opaque: the
    property holds a reference or nothing, a call is recorded as an
    effect and is taken not to write to the actor (the function installed
    by the class is empty).  [lastState.pos] and [lastState.vel] are the
    fields [lastState_pos] and [lastState_vel]. *)
Record Actor : Type := {
  ID : string;
  willDispose : bool;
  isDebugEnabled : bool;
  doUpdate : bool;
  doDraw : bool;
  animationManager : AnimationManager;
  textureManager : TextureManager;
  pos : Vector.Vector num;
  size : Vector.Vector num;
  vel : Vector.Vector num;
  draw : option nat;
  update : option nat;
  lastState_pos : Vector.Vector num;
  lastState_vel : Vector.Vector num
}.

Definition set_pos (v : Vector.Vector num) (a : Actor) : Actor :=
  {| ID := ID a; willDispose := willDispose a; isDebugEnabled := isDebugEnabled a;
     doUpdate := doUpdate a; doDraw := doDraw a;
     animationManager := animationManager a; textureManager := textureManager a;
     pos := v; size := size a; vel := vel a; draw := draw a; update := update a;
     lastState_pos := lastState_pos a; lastState_vel := lastState_vel a |}.

Definition set_animationManager (v : AnimationManager) (a : Actor) : Actor :=
  {| ID := ID a; willDispose := willDispose a; isDebugEnabled := isDebugEnabled a;
     doUpdate := doUpdate a; doDraw := doDraw a;
     animationManager := v; textureManager := textureManager a;
     pos := pos a; size := size a; vel := vel a; draw := draw a; update := update a;
     lastState_pos := lastState_pos a; lastState_vel := lastState_vel a |}.

Definition set_textureManager (v : TextureManager) (a : Actor) : Actor :=
  {| ID := ID a; willDispose := willDispose a; isDebugEnabled := isDebugEnabled a;
     doUpdate := doUpdate a; doDraw := doDraw a;
     animationManager := animationManager a; textureManager := v;
     pos := pos a; size := size a; vel := vel a; draw := draw a; update := update a;
     lastState_pos := lastState_pos a; lastState_vel := lastState_vel a |}.

Definition set_deltaSum (v : num) (m : AnimationManager) : AnimationManager :=
  {| animations := animations m; animationID := animationID m;
     animationFrame := animationFrame m; deltaSum := v |}.

Definition set_animationFrame (v : nat) (m : AnimationManager) : AnimationManager :=
  {| animations := animations m; animationID := animationID m;
     animationFrame := v; deltaSum := deltaSum m |}.

Definition set_textureOffset (v : Vector.Vector num) (m : TextureManager)
  : TextureManager :=
  {| textures := textures m; textureID := textureID m; textureOffset := v |}.

Inductive Effect : Type :=
| ctx (op : Canvas.Op num)
| user_draw (fn : nat) (interp : num).

(** How a method call ends: the actor as the call leaves it, the effects
    it had, and whether it returned or threw (a [TypeError], on reading a
    property of [undefined]). *)
Record Outcome : Type := {
  after : Actor;
  effects : list Effect;
  threw : bool
}.

Definition returns (a : Actor) (t : list Effect) : Outcome :=
  {| after := a; effects := t; threw := false |}.

Definition throws (a : Actor) (t : list Effect) : Outcome :=
  {| after := a; effects := t; threw := true |}.

(** [updateAnimation] *)
Definition updateAnimation (delta : num) (a : Actor) : Outcome :=
  if negb (truthy (animationID (animationManager a))) then returns a []
  else
    match lookup (animations (animationManager a)) (animationID (animationManager a)) with
    | None => throws a []
    | Some animationState =>
        let currentFrame :=
          nth_error (frames animationState) (animationFrame (animationManager a)) in
        let a :=
          set_animationManager
            (set_deltaSum (nadd (deltaSum (animationManager a)) delta) (animationManager a))
            a in
        match currentFrame with
        | None => throws a []
        | Some currentFrame =>
            if nge (deltaSum (animationManager a)) (duration currentFrame) then
              let a :=
                set_animationManager
                  (set_deltaSum
                     (nsub (deltaSum (animationManager a)) (duration currentFrame))
                     (animationManager a)) a in
              let a :=
                set_animationManager
                  (set_animationFrame
                     ((animationFrame (animationManager a) + 1)
                        mod length (frames animationState))%nat
                     (animationManager a)) a in
              match lookup (textures (textureManager a))
                      (animation_textureID animationState) with
              | None => throws a []
              | Some texture =>
                  let spriteSize := spriteSize texture in
                  let spriteRowCount :=
                    nfloor (ndiv (width (imageBitmap texture)) (Vector.x spriteSize)) in
                  let spriteColumnCount :=
                    nfloor (ndiv (height (imageBitmap texture)) (Vector.y spriteSize)) in
                  let frame := of_Z (Z.of_nat (animationFrame (animationManager a))) in
                  let offset :=
                    Vector.vec
                      (nmul (nrem frame spriteRowCount) (Vector.x spriteSize))
                      (nmul (ndiv (nsub frame (nrem frame spriteRowCount)) spriteColumnCount)
                         (Vector.y spriteSize)) in
                  returns
                    (set_textureManager (set_textureOffset offset (textureManager a)) a)
                    []
              end
            else returns a []
        end
    end.

(** [drawTexture]; [None] when it throws. *)
Definition drawTexture (a : Actor) : option (list Effect) :=
  match lookup (textures (textureManager a)) (textureID (textureManager a)) with
  | None => None
  | Some texture =>
      Some [ctx (Canvas.drawImage5 (bitmap (imageBitmap texture))
                   (Vector.x (pos a)) (Vector.y (pos a))
                   (Vector.x (size a)) (Vector.y (size a)))]
  end.

(** [drawTextureFromMap]; [None] when it throws. *)
Definition drawTextureFromMap (a : Actor) : option (list Effect) :=
  match lookup (animations (animationManager a)) (animationID (animationManager a)) with
  | None => None
  | Some animationState =>
      match lookup (textures (textureManager a)) (animation_textureID animationState) with
      | None => None
      | Some texture =>
          Some [ctx (Canvas.drawImage9 (bitmap (imageBitmap texture))
                       (Vector.x (textureOffset (textureManager a)))
                       (Vector.y (textureOffset (textureManager a)))
                       (Vector.x (spriteSize texture)) (Vector.y (spriteSize texture))
                       (Vector.x (pos a)) (Vector.y (pos a))
                       (Vector.x (size a)) (Vector.y (size a)))]
      end
  end.

Definition drawDebug (a : Actor) : list Effect :=
  let half := ndiv (of_Z 1) (of_Z 2) in
  let line (i : Z) := nsub (Vector.y (pos a)) (nmul (of_Z 12) (nadd (of_Z i) half)) in
  map ctx
    [Canvas.save;
     Canvas.strokeStyle "red";
     Canvas.strokeRect (Vector.x (pos a)) (Vector.y (pos a))
       (Vector.x (size a)) (Vector.y (size a));
     Canvas.fillStyle "white";
     Canvas.fillText (Canvas.Labelled "pos" (Vector.x (pos a)) (Vector.y (pos a)))
       (Vector.x (pos a)) (line 0);
     Canvas.fillText (Canvas.Labelled "vel" (Vector.x (vel a)) (Vector.y (vel a)))
       (Vector.x (pos a)) (line 1);
     Canvas.restore].

(** [performDrawCalls]; the canvas context is the list of effects. *)
Definition performDrawCalls (interp : num) (a : Actor) : Outcome :=
  if negb (doDraw a) then returns a []
  else
    let a :=
      set_pos
        (Vector.add (lastState_pos a)
           (Vector.mult (Vector.sub (pos a) (lastState_pos a)) interp)) a in
    let t := [ctx Canvas.save] in
    match (if truthy (textureID (textureManager a)) then drawTexture a else Some []) with
    | None => throws a t
    | Some t1 =>
        let t := t ++ t1 in
        match (if truthy (animationID (animationManager a))
               then drawTextureFromMap a else Some []) with
        | None => throws a t
        | Some t2 =>
            let t := t ++ t2 in
            let t := t ++ match draw a with
                          | Some fn => [user_draw fn interp]
                          | None => []
                          end in
            let t := t ++ [ctx Canvas.restore] in
            returns a (t ++ if isDebugEnabled a then drawDebug a else [])
        end
    end.

(** The actor after [n] successive calls of [updateAnimation] with the
    same [delta]. *)
Fixpoint updateAnimation_times (n : nat) (delta : num) (a : Actor) : Actor :=
  match n with
  | O => a
  | S n' => after (updateAnimation delta (updateAnimation_times n' delta a))
  end.

(** The animation manager of [a] at frame [q mod 3] with [r]
    milliseconds accumulated. *)
Definition pacing (a : Actor) (q r : nat) : AnimationManager :=
  {| animations := animations (animationManager a);
     animationID := animationID (animationManager a);
     animationFrame := (q mod 3)%nat;
     deltaSum := of_Z (Z.of_nat r) |}.

End WithNumber.

Arguments Actor num : clear implicits.
Arguments AnimationManager num : clear implicits.
Arguments TextureManager num : clear implicits.
Arguments AnimationState num : clear implicits.
Arguments AnimationKeyframe num : clear implicits.
Arguments Texture num : clear implicits.
Arguments ImageBitmap num : clear implicits.
Arguments Outcome num : clear implicits.

(** *** The rest of the class

    The constructor, the texture and animation registries and
    [performUpdates].  The two registries are plain objects keyed by
    identifier: a property is assigned with [JSMap.set], removed with
    [JSMap.delete] and read with [lookup]; identifiers are taken not to
    be names of properties that every object inherits.  The options of
    [addAnimationState] carry every property, as the parameter's type
    requires. *)

(** How a call can fail: a [TypeError] on reading a property of
    [undefined] or [null], or an error thrown by [assert]. *)
Inductive Failure : Type :=
| TypeError
| Failed (error : Engine.Error).

Definition bind {A B : Type} (m : Failure + A) (k : A -> Failure + B) : Failure + B :=
  match m with
  | inl f => inl f
  | inr a => k a
  end.

(** A call of [assert] in a method. *)
Definition check (condition : bool) (message : string) : Failure + unit :=
  match Engine.assert condition message with
  | Some error => inl (Failed error)
  | None => inr tt
  end.

Notation "x <- m ;; k" := (bind m (fun x => k))
  (at level 61, m at next level, right associativity).
Notation "m ;; k" := (bind m (fun _ => k))
  (at level 61, right associativity).

Definition isSome {A : Type} (o : option A) : bool :=
  match o with Some _ => true | None => false end.

Section Registries.
Context {num : Type} `{Number num}.

(** The optional third argument of [addTexture]; a property left out is
    [None]. *)
Record TextureOptions : Type := {
  options_spriteSize : option (Vector.Vector num);
  options_textureFrameCount : option Z
}.

(** The third argument of [addAnimationState]; [frames] is an array or
    [null]. *)
Record AnimationOptions : Type := {
  options_frameCount : Z;
  options_startIndex : Z;
  options_frameDuration : num;
  options_frames : option (list (AnimationKeyframe num))
}.


(** The second argument of the constructor. *)
Record ActorProperties : Type := {
  properties_pos : option (Vector.Vector num);
  properties_vel : option (Vector.Vector num);
  properties_isDebugEnabled : option bool
}.

Definition set_textures (v : list (string * Texture num)) (m : TextureManager num)
  : TextureManager num :=
  {| textures := v; textureID := textureID m; textureOffset := textureOffset m |}.

Definition set_animations (v : list (string * AnimationState num))
  (m : AnimationManager num) : AnimationManager num :=
  {| animations := v; animationID := animationID m;
     animationFrame := animationFrame m; deltaSum := deltaSum m |}.

Definition set_animationID (v : string) (m : AnimationManager num) : AnimationManager num :=
  {| animations := animations m; animationID := v;
     animationFrame := animationFrame m; deltaSum := deltaSum m |}.

Definition set_vel (v : Vector.Vector num) (a : Actor num) : Actor num :=
  {| ID := ID a; willDispose := willDispose a; isDebugEnabled := isDebugEnabled a;
     doUpdate := doUpdate a; doDraw := doDraw a;
     animationManager := animationManager a; textureManager := textureManager a;
     pos := pos a; size := size a; vel := v; draw := draw a; update := update a;
     lastState_pos := lastState_pos a; lastState_vel := lastState_vel a |}.

Definition set_lastState (p v : Vector.Vector num) (a : Actor num) : Actor num :=
  {| ID := ID a; willDispose := willDispose a; isDebugEnabled := isDebugEnabled a;
     doUpdate := doUpdate a; doDraw := doDraw a;
     animationManager := animationManager a; textureManager := textureManager a;
     pos := pos a; size := size a; vel := vel a; draw := draw a; update := update a;
     lastState_pos := p; lastState_vel := v |}.

(** The constructor, after the field initialisers; the user functions
    installed by the class are the references [0]. *)
Definition new_Actor (ID : string) (size : option (Vector.Vector num))
  (properties : option ActorProperties) : Failure + Actor num :=
  check (truthy ID) "Actor must have an ID" ;;
  check (isSome size) "Actor must be initialized with a size" ;;
  match size with
  | None => inl TypeError          (* not reached: [assert] has thrown *)
  | Some size =>
      let zero := Vector.vec (of_Z 0) (of_Z 0) in
      let pos :=
        match properties with
        | Some {| properties_pos := Some p |} => p
        | _ => zero
        end in
      let vel :=
        match properties with
        | Some {| properties_vel := Some v |} => v
        | _ => zero
        end in
      let isDebugEnabled :=
        match properties with
        | Some {| properties_isDebugEnabled := Some b |} => b
        | _ => false
        end in
      inr {| ID := ID; willDispose := false; isDebugEnabled := isDebugEnabled;
             doUpdate := true; doDraw := true;
             animationManager :=
               {| animations := []; animationID := ""; animationFrame := 0;
                  deltaSum := of_Z 0 |};
             textureManager :=
               {| textures := []; textureID := ""; textureOffset := zero |};
             pos := pos; size := size; vel := vel;
             draw := Some 0%nat; update := Some 0%nat;
             lastState_pos := pos; lastState_vel := vel |}
  end.

Definition addTexture (textureID : string) (imageBitmap : ImageBitmap num)
  (options : option TextureOptions) (a : Actor num) : Failure + bool * Actor num :=
  if isSome (lookup (textures (textureManager a)) textureID) then inr (false, a)
  else
    match options with
    | None => inl TypeError
    | Some options =>
        let frameCount :=
          match options_textureFrameCount options with
          | Some n => n
          | None => 1
          end in
        match options_spriteSize options with
        | None => inl TypeError
        | Some spriteSize =>
            check (ngt (Vector.x spriteSize) (of_Z 0) && ngt (Vector.y spriteSize) (of_Z 0))
              "Error adding texture: spriteSize must be a positive Vector" ;;
            inr (true,
                 set_textureManager
                   (set_textures
                      (JSMap.set textureID
                         {| imageBitmap := imageBitmap; spriteSize := spriteSize;
                            frameCount := frameCount |}
                         (textures (textureManager a)))
                      (textureManager a)) a)
        end
    end.

Definition removeTexture (textureID : string) (a : Actor num) : Failure + bool * Actor num :=
  if negb (isSome (lookup (textures (textureManager a)) textureID)) then inr (false, a)
  else
    inr (true,
         set_textureManager
           (set_textures (JSMap.delete textureID (textures (textureManager a)))
              (textureManager a)) a).

Definition addAnimationState (animationID textureID : string) (options : AnimationOptions)
  (a : Actor num) : Failure + bool * Actor num :=
  check (negb (isSome (lookup (animations (animationManager a)) animationID)))
    "animationID must be unique" ;;
  let texture := lookup (textures (textureManager a)) textureID in
  let startIndex := options_startIndex options in
  let frameDuration := options_frameDuration options in
  let frames := options_frames options in
  frameCount <-
    (if (options_frameCount options =? -1) && negb (isSome frames) then
       match texture with
       | None => inl TypeError
       | Some texture => inr (frameCount texture - startIndex)
       end
     else inr (options_frameCount options)) ;;
  check (0 <? frameCount) "frameCount must be positive" ;;
  match texture with
  | None => inl TypeError
  | Some texture =>
      check (frameCount <=? Actor.frameCount texture)
        "frameCount must be less than provided texture's frame count." ;;
      check (0 <=? startIndex) "startIndex must be 0 or greater" ;;
      check (startIndex <? Actor.frameCount texture)
        "startIndex must be less than provided texture's frame count." ;;
      check (ngt frameDuration (of_Z 0)) "frameDuration must be positive" ;;
      match frames with
      | Some frames =>
          check (0 <? length frames)%nat "frames must have at least one frame" ;;
          inr (true,
               set_animationManager
                 (set_animations
                    (JSMap.set animationID
                       {| animation_textureID := textureID; Actor.frames := frames |}
                       (animations (animationManager a)))
                    (animationManager a)) a)
      | None =>
          let frames :=
            map (fun i => {| index := startIndex + Z.of_nat i; duration := frameDuration |})
              (seq 0 (Z.to_nat frameCount)) in
          inr (true,
               set_animationManager
                 (set_animations
                    (JSMap.set animationID
                       {| animation_textureID := textureID; Actor.frames := frames |}
                       (animations (animationManager a)))
                    (animationManager a)) a)
      end
  end.

Definition removeAnimationState (animationID : string) (a : Actor num)
  : Failure + bool * Actor num :=
  check (isSome (lookup (animations (animationManager a)) animationID))
    "animationID must exist" ;;
  let m := set_animationID "" (animationManager a) in
  let m := set_animationFrame 0 m in
  let m := set_animations (JSMap.delete animationID (animations m)) m in
  inr (true, set_animationManager m a).

Definition setAnimationState (animationID : string) (a : Actor num)
  : Failure + bool * Actor num :=
  check (isSome (lookup (animations (animationManager a)) animationID))
    "animationID must be valid" ;;
  let m := animationManager a in
  let m := if truthy (Actor.animationID m) then set_animationFrame 0 m else m in
  let m := set_animationID animationID m in
  inr (true, set_animationManager m a).

(** The number of frames [addAnimationState] settles on for a texture,
    and the keyframes it stores. *)
Definition settled (options : AnimationOptions) (texture : Texture num) : Z :=
  if (options_frameCount options =? -1) && negb (isSome (options_frames options))
  then frameCount texture - options_startIndex options
  else options_frameCount options.

Definition keyframes (options : AnimationOptions) (texture : Texture num)
  : list (AnimationKeyframe num) :=
  match options_frames options with
  | Some frames => frames
  | None =>
      map (fun i => {| index := options_startIndex options + Z.of_nat i;
                       duration := options_frameDuration options |})
        (seq 0 (Z.to_nat (settled options texture)))
  end.

(** The actor with the [index] of every keyframe of every animation
    state replaced by its image under [g]. *)
Definition reindex_state (g : Z -> Z) (s : AnimationState num) : AnimationState num :=
  {| animation_textureID := animation_textureID s;
     frames := map (fun k => {| index := g (index k); duration := duration k |}) (frames s) |}.

Definition reindex (g : Z -> Z) (a : Actor num) : Actor num :=
  set_animationManager
    (set_animations
       (map (fun kv => (fst kv, reindex_state g (snd kv))) (animations (animationManager a)))
       (animationManager a)) a.


End Registries.

Arguments TextureOptions num : clear implicits.
Arguments AnimationOptions num : clear implicits.
Arguments ActorProperties num : clear implicits.

Section Ticking.
Context {num : Type} `{NumberMath num}.

(** [if (Math.abs(v) < Number.EPSILON) v = 0], as the value of [v]
    afterwards. *)
Definition snap (v : num) : num := if nlt (nabs v) EPSILON then of_Z 0 else v.

(** How [performUpdates] ends: the actor it leaves, whether it threw
    (in [updateAnimation]), and the calls of the user function [update]
    it made, each with the time step passed. *)
Record Ticked : Type := {
  ticked_actor : Actor num;
  ticked_threw : bool;
  ticked_calls : list (nat * num)
}.

(** [performUpdates]; [accel] is [env.properties.physics.accel]. *)
Definition performUpdates (timestep : num) (accel : Vector.Vector num) (a : Actor num)
  : Ticked :=
  if negb (doUpdate a) then
    {| ticked_actor := a; ticked_threw := false; ticked_calls := [] |}
  else
    let a := set_pos (Vector.vec (snap (Vector.x (pos a))) (Vector.y (pos a))) a in
    let a := set_pos (Vector.vec (Vector.x (pos a)) (snap (Vector.y (pos a)))) a in
    let a := set_vel (Vector.vec (snap (Vector.x (vel a))) (Vector.y (vel a))) a in
    let a := set_vel (Vector.vec (Vector.x (vel a)) (snap (Vector.y (vel a)))) a in
    let a := set_lastState (pos a) (vel a) a in
    let a := set_vel (Vector.add (vel a) (Vector.div accel timestep)) a in
    let o := updateAnimation timestep a in
    if threw o then
      {| ticked_actor := after o; ticked_threw := true; ticked_calls := [] |}
    else
      {| ticked_actor := after o; ticked_threw := false;
         ticked_calls :=
           match update (after o) with
           | Some fn => [(fn, timestep)]
           | None => []
           end |}.

(** A call of one of the methods above on an actor. *)
Inductive Call : Type :=
| call_addTexture (textureID : string) (imageBitmap : ImageBitmap num)
    (options : option (TextureOptions num))
| call_removeTexture (textureID : string)
| call_addAnimationState (animationID textureID : string) (options : AnimationOptions num)
| call_removeAnimationState (animationID : string)
| call_setAnimationState (animationID : string)
| call_performUpdates (timestep : num) (accel : Vector.Vector num)
| call_performDrawCalls (interp : num).

(** The actor after a call and whether the call threw; a call that
    throws leaves the actor as it was at the [throw]. *)
Definition call (c : Call) (a : Actor num) : Actor num * bool :=
  let method (r : Failure + bool * Actor num) :=
    match r with
    | inl _ => (a, true)
    | inr (_, a') => (a', false)
    end in
  match c with
  | call_addTexture textureID imageBitmap options =>
      method (addTexture textureID imageBitmap options a)
  | call_removeTexture textureID => method (removeTexture textureID a)
  | call_addAnimationState animationID textureID options =>
      method (addAnimationState animationID textureID options a)
  | call_removeAnimationState animationID => method (removeAnimationState animationID a)
  | call_setAnimationState animationID => method (setAnimationState animationID a)
  | call_performUpdates timestep accel =>
      let r := performUpdates timestep accel a in (ticked_actor r, ticked_threw r)
  | call_performDrawCalls interp =>
      let r := performDrawCalls interp a in (after r, threw r)
  end.

(** Calls made one after the other by a caller that catches what they
    throw. *)
Fixpoint run (calls : list Call) (a : Actor num) : Actor num :=
  match calls with
  | [] => a
  | c :: rest => run rest (fst (call c a))
  end.




End Ticking.

Arguments Ticked num : clear implicits.
Arguments Call num : clear implicits.

End Actor.

(** ** The parameter GUI

    The class [ParameterSection] of [core/gui.ts]: a named section with
    its parameters, a [Map] from names to callbacks, and its subsections,
    an array.  A section is embedded as a value; what a caller does to a
    subsection through the reference that [addSubsection] or
    [getSubsectionByTitle] returns is not embedded, nor is [render],
    which measures text on the canvas. *)

Module GUI.

(** A parameter's callback is known by its reference. *)
Definition Callback : Type := nat.

#[local] Unset Elimination Schemes.

Inductive ParameterSection : Type :=
  mkParameterSection {
    name : string;
    isCollapsed : bool;
    subsections : list ParameterSection;
    parameters : JSMap.t Callback
  }.

#[local] Set Elimination Schemes.

Definition set_subsections (v : list ParameterSection) (s : ParameterSection)
  : ParameterSection :=
  {| name := name s; isCollapsed := isCollapsed s; subsections := v;
     parameters := parameters s |}.

Definition set_parameters (v : JSMap.t Callback) (s : ParameterSection)
  : ParameterSection :=
  {| name := name s; isCollapsed := isCollapsed s; subsections := subsections s;
     parameters := v |}.

(** [a.findIndex(p)]: the index of the first element that satisfies
    [p], and [-1] when there is none. *)
Fixpoint findIndex_from {A : Type} (p : A -> bool) (a : list A) (i : Z) : Z :=
  match a with
  | [] => -1
  | h :: t => if p h then i else findIndex_from p t (i + 1)
  end.

Definition findIndex {A : Type} (p : A -> bool) (a : list A) : Z := findIndex_from p a 0.

(** The constructor; [isCollapsed] defaults to [false]. *)
Definition new_ParameterSection (name : string) (isCollapsed : option bool)
  : ParameterSection :=
  {| name := name;
     isCollapsed := match isCollapsed with Some b => b | None => false end;
     subsections := []; parameters := [] |}.

(** [addParameter] returns the section itself. *)
Definition addParameter (name : string) (callback : Callback) (s : ParameterSection)
  : Engine.Error + ParameterSection :=
  match Engine.assert (negb (JSMap.has name (parameters s)))
          ("Parameter with name " ++ name ++ " already exists") with
  | Some error => inl error
  | None => inr (set_parameters (JSMap.set name callback (parameters s)) s)
  end.

(** [removeParameter] answers what [Map.delete] answers: whether the
    key was present. *)
Definition removeParameter (name : string) (s : ParameterSection)
  : bool * ParameterSection :=
  (JSMap.has name (parameters s),
   set_parameters (JSMap.delete name (parameters s)) s).

(** [addSubsection]: the section created and the section itself. *)
Definition addSubsection (name : string) (isCollapsed : option bool) (s : ParameterSection)
  : Engine.Error + ParameterSection * ParameterSection :=
  match Engine.assert
          (match find (fun section => String.eqb (GUI.name section) name)
                   (subsections s) with
           | Some _ => false
           | None => true
           end)
          ("Debug section with name " ++ name ++ " already exists") with
  | Some error => inl error
  | None =>
      let section := new_ParameterSection name isCollapsed in
      inr (section, set_subsections (JSArray.push (subsections s) section) s)
  end.

Definition removeSubsection (name : string) (s : ParameterSection)
  : bool * ParameterSection :=
  let index := findIndex (fun section => String.eqb (GUI.name section) name)
                 (subsections s) in
  if index =? -1 then (false, s)
  else (true, set_subsections (JSArray.splice (subsections s) index 1) s).

Definition clear (s : ParameterSection) : ParameterSection :=
  set_parameters [] (set_subsections [] s).

Definition getSubsectionByTitle (name : string) (s : ParameterSection)
  : Engine.Error + ParameterSection :=
  match find (fun section => String.eqb (GUI.name section) name) (subsections s) with
  | Some section => inr section
  | None => inl (Engine.mkError ("Debug section with name " ++ name ++ " does not exist"))
  end.

(** A call of one of the methods on a section. *)
Inductive Call : Type :=
| call_addParameter (name : string) (callback : Callback)
| call_removeParameter (name : string)
| call_addSubsection (name : string) (isCollapsed : option bool)
| call_removeSubsection (name : string)
| call_clear.

(** The section after a call, whether the call returned or threw. *)
Definition call (c : Call) (s : ParameterSection) : ParameterSection :=
  match c with
  | call_addParameter name callback =>
      match addParameter name callback s with inr s' => s' | inl _ => s end
  | call_removeParameter name => snd (removeParameter name s)
  | call_addSubsection name isCollapsed =>
      match addSubsection name isCollapsed s with inr (_, s') => s' | inl _ => s end
  | call_removeSubsection name => snd (removeSubsection name s)
  | call_clear => clear s
  end.

Fixpoint run (calls : list Call) (s : ParameterSection) : ParameterSection :=
  match calls with
  | [] => s
  | c :: rest => run rest (call c s)
  end.

End GUI.



(** ** Sample objects *)

Module Samples.

Section WithNumber.
Context {num : Type} `{Number num}.

Definition host : Engine.Host num :=
  {| Engine.devicePixelRatio := of_Z 1;
     Engine.computedWidth := of_Z 800;
     Engine.computedHeight := of_Z 600 |}.

Definition menu : Engine.Scene :=
  {| Engine.ID := "menu"; Engine.name := "menu";
     Engine.isTickEnabled := true; Engine.isRenderEnabled := true;
     Engine.isQueuedForDisposal := true; Engine.actors_size := 0 |}.

Definition level : Engine.Scene :=
  {| Engine.ID := "level"; Engine.name := "level";
     Engine.isTickEnabled := true; Engine.isRenderEnabled := true;
     Engine.isQueuedForDisposal := false; Engine.actors_size := 2 |}.

(** A new engine in which both scenes are registered. *)
Definition created : Engine.Engine num :=
  Engine.set_scenes (JSMap.set "level" level (JSMap.set "menu" menu []))
    (fst (Engine.new_Engine host)).

(** The same engine once [start] has completed, at time [0]. *)
Definition running : Engine.Engine num :=
  match Engine.start host (of_Z 0) created with
  | inr (e, _) => e
  | inl _ => created
  end.

Definition paused : Engine.Engine num := fst (Engine.pause running).

Definition keyPayload (k : string) : EventHandler.Payload num :=
  {| EventHandler.type := Some EventHandler.onkeydown;
     EventHandler.button := None; EventHandler.x := None; EventHandler.y := None;
     EventHandler.key := Some k;
     EventHandler.width := None; EventHandler.height := None;
     EventHandler.deltaTime := None; EventHandler.interpolationFactor := None |}.

(** A handler whose predicate answers [true]. *)
Definition listening : EventHandler.EventHandler num :=
  EventHandler.setEnginePauseStateCallback (fun _ => true) EventHandler.new_EventHandler.

Definition movePayload (px py : num) : EventHandler.Payload num :=
  {| EventHandler.type := Some EventHandler.onmousemove;
     EventHandler.button := Some 0; EventHandler.x := Some px; EventHandler.y := Some py;
     EventHandler.key := None;
     EventHandler.width := None; EventHandler.height := None;
     EventHandler.deltaTime := None; EventHandler.interpolationFactor := None |}.

(** Callback [7] registered for [onmousemove]; the mouse has moved twice
    since the last dispatch. *)
Definition two_moves_queued : EventHandler.EventHandler num :=
  EventHandler.queueEvent EventHandler.onmousemove (movePayload (of_Z 11) (of_Z 10))
    (EventHandler.queueEvent EventHandler.onmousemove (movePayload (of_Z 10) (of_Z 10))
       (EventHandler.registerEventCallback EventHandler.onmousemove 7%nat listening)).

(** Callbacks [1] and [2] registered for [ontick], in that order. *)
Definition two_callbacks : EventHandler.EventHandler num :=
  EventHandler.registerEventCallback EventHandler.ontick 2%nat
    (EventHandler.registerEventCallback EventHandler.ontick 1%nat
       EventHandler.new_EventHandler).

Definition sheet : Actor.Texture num :=
  {| Actor.imageBitmap :=
       {| Actor.bitmap := "sheet.png"; Actor.width := of_Z 96; Actor.height := of_Z 32 |};
     Actor.spriteSize := Vector.vec (of_Z 32) (of_Z 32);
     Actor.frameCount := 3 |}.

Definition walk : Actor.AnimationState num :=
  {| Actor.animation_textureID := "sheet";
     Actor.frames :=
       [ {| Actor.index := 0; Actor.duration := of_Z 100 |};
         {| Actor.index := 1; Actor.duration := of_Z 100 |};
         {| Actor.index := 2; Actor.duration := of_Z 100 |} ] |}.

(** An actor that plays [walk], last ticked from (0, 0) to (10, 20). *)
Definition walker : Actor.Actor num :=
  {| Actor.ID := "walker"; Actor.willDispose := false; Actor.isDebugEnabled := false;
     Actor.doUpdate := true; Actor.doDraw := true;
     Actor.animationManager :=
       {| Actor.animations := [("walk", walk)]; Actor.animationID := "walk";
          Actor.animationFrame := 0; Actor.deltaSum := of_Z 0 |};
     Actor.textureManager :=
       {| Actor.textures := [("sheet", sheet)]; Actor.textureID := "";
          Actor.textureOffset := Vector.vec (of_Z 0) (of_Z 0) |};
     Actor.pos := Vector.vec (of_Z 10) (of_Z 20);
     Actor.size := Vector.vec (of_Z 32) (of_Z 32);
     Actor.vel := Vector.vec (of_Z 0) (of_Z 0);
     Actor.draw := Some 0%nat; Actor.update := Some 0%nat;
     Actor.lastState_pos := Vector.vec (of_Z 0) (of_Z 0);
     Actor.lastState_vel := Vector.vec (of_Z 0) (of_Z 0) |}.

Definition sheetBitmap : Actor.ImageBitmap num :=
  {| Actor.bitmap := "sheet.png"; Actor.width := of_Z 96; Actor.height := of_Z 32 |}.

Definition sheetOptions : Actor.TextureOptions num :=
  {| Actor.options_spriteSize := Some (Vector.vec (of_Z 32) (of_Z 32));
     Actor.options_textureFrameCount := Some 3 |}.

(** A new actor of 32 by 32, constructed without properties. *)
Definition sprite : Actor.Actor num :=
  match Actor.new_Actor "sprite" (Some (Vector.vec (of_Z 32) (of_Z 32))) None with
  | inr a => a
  | inl _ => walker
  end.

End WithNumber.

Section WithMath.
Context {num : Type} `{NumberMath num}.


End WithMath.

End Samples.

(* ================================================================== *)
(** * Part II. Properties                                              *)
(* ================================================================== *)

(** ** Arrays and maps *)

Section ArrayFacts.
Context {A : Type}.

Lemma splice_at (d r : list A) (a : A) :
  JSArray.splice (d ++ a :: r) (Z.of_nat (length d)) 1 = d ++ r.
Proof.
  unfold JSArray.splice.
  rewrite length_app; cbn [length].
  assert (Hlt : (Z.of_nat (length d) <? 0) = false) by (apply Z.ltb_ge; lia).
  rewrite Hlt.
  replace (Z.min (Z.of_nat (length d)) (Z.of_nat (length d + S (length r))))
    with (Z.of_nat (length d)) by lia.
  replace (Z.min (Z.max 1 0) (Z.of_nat (length d + S (length r)) - Z.of_nat (length d)))
    with 1 by lia.
  rewrite Nat2Z.id.
  replace (Z.to_nat (Z.of_nat (length d) + 1)) with (length d + 1)%nat by lia.
  rewrite firstn_app, firstn_all, Nat.sub_diag; cbn [firstn].
  rewrite skipn_app, skipn_all2 by lia.
  replace (length d + 1 - length d)%nat with 1%nat by lia.
  cbn [skipn app]. now rewrite app_nil_r.
Qed.

(** [splice(-1, 1)] drops the last element. *)
Lemma splice_minus_one (l : list A) : JSArray.splice l (-1) 1 = removelast l.
Proof.
  destruct l as [|h t]; [reflexivity|].
  destruct (@exists_last A (h :: t)) as [d [a E]]; [discriminate|].
  rewrite E, removelast_last.
  unfold JSArray.splice.
  rewrite length_app; cbn [length].
  replace (-1 <? 0) with true by reflexivity.
  replace (Z.max (Z.of_nat (length d + 1) + -1) 0) with (Z.of_nat (length d)) by lia.
  replace (Z.min (Z.max 1 0) (Z.of_nat (length d + 1) - Z.of_nat (length d)))
    with 1 by lia.
  rewrite Nat2Z.id.
  replace (Z.to_nat (Z.of_nat (length d) + 1)) with (length d + 1)%nat by lia.
  rewrite firstn_app, firstn_all, Nat.sub_diag; cbn [firstn].
  rewrite skipn_all2 by (rewrite length_app; cbn [length]; lia).
  now rewrite !app_nil_r.
Qed.

Lemma indexOf_from_absent (eqb : A -> A -> bool) (l : list A) (v : A) (i : Z) :
  (forall u, In u l -> eqb u v = false) -> JSArray.indexOf_from eqb l v i = -1.
Proof.
  revert i; induction l as [|h t IH]; intros i Hl; cbn [JSArray.indexOf_from].
  - reflexivity.
  - rewrite (Hl h (or_introl eq_refl)). apply IH. intros u Hu. apply Hl. now right.
Qed.

Lemma indexOf_from_first (eqb : A -> A -> bool) (d r : list A) (v w : A) (i : Z) :
  (forall u, In u d -> eqb u v = false) -> eqb w v = true ->
  JSArray.indexOf_from eqb (d ++ w :: r) v i = i + Z.of_nat (length d).
Proof.
  revert i; induction d as [|h t IH]; intros i Hd Hw; cbn [JSArray.indexOf_from app length].
  - rewrite Hw. lia.
  - rewrite (Hd h (or_introl eq_refl)).
    rewrite IH; [lia | | exact Hw]. intros u Hu. apply Hd. now right.
Qed.

End ArrayFacts.

Section MapFacts.
Context {V : Type}.

Lemma has_absent (key : string) (m : JSMap.t V) :
  ~ In key (map fst m) -> JSMap.has key m = false.
Proof.
  unfold JSMap.has. induction m as [|[k v] m IH]; cbn; intros N; [reflexivity|].
  rewrite IH by tauto. destruct (String.eqb_spec k key); [|reflexivity].
  exfalso; apply N; now left.
Qed.

Lemma from_entries_unique_aux : forall (l acc : list (string * V)),
  NoDup (map fst (acc ++ l)) ->
  fold_left (fun m kv => JSMap.set (fst kv) (snd kv) m) l acc = acc ++ l.
Proof.
  induction l as [|[k v] l IH]; intros acc N; cbn [fold_left].
  - now rewrite app_nil_r.
  - cbn [fst snd]. unfold JSMap.set. rewrite has_absent.
    + replace (acc ++ (k, v) :: l) with ((acc ++ [(k, v)]) ++ l)
        by (now rewrite <- app_assoc).
      apply IH. now rewrite <- app_assoc.
    + rewrite map_app in N. cbn [map fst] in N.
      apply NoDup_remove_2 in N. intros F. apply N. apply in_or_app. now left.
Qed.

(** [new Map(m.entries())] is a copy of [m]. *)
Lemma from_entries_unique (m : JSMap.t V) :
  NoDup (map fst m) -> JSMap.from_entries m = m.
Proof. intros N. unfold JSMap.from_entries. now rewrite from_entries_unique_aux. Qed.

End MapFacts.

(** ** The event handler *)

Section EventHandlerFacts.
Import EventHandler.
Context {num : Type}.
Implicit Types (h : EventHandler num) (t : EventType) (payload : Payload num).

Lemma EventType_beq_refl t : EventType_beq t t = true.
Proof. now destruct t. Qed.

Lemma EventType_beq_neq t u : t <> u -> EventType_beq t u = false.
Proof. destruct t, u; intros Hne; try reflexivity; now elim Hne. Qed.

Lemma assign_same {V : Type} (o : EventType -> V) t v : assign o t v t = v.
Proof. unfold assign. now rewrite EventType_beq_refl. Qed.

Lemma assign_other {V : Type} (o : EventType -> V) t u v :
  u <> t -> assign o t v u = o u.
Proof. intros Hne. unfold assign. now rewrite EventType_beq_neq. Qed.

Lemma strict_ne_string (a b : option string) : strict_ne String.eqb a b = true <-> a <> b.
Proof.
  destruct a as [u|], b as [v|]; cbn [strict_ne].
  - rewrite negb_true_iff, String.eqb_neq. split; congruence.
  - split; [intros _; discriminate | reflexivity].
  - split; [intros _; discriminate | reflexivity].
  - split; [discriminate | intros N; now elim N].
Qed.

Lemma strict_ne_Z (a b : option Z) : strict_ne Z.eqb a b = true <-> a <> b.
Proof.
  destruct a as [u|], b as [v|]; cbn [strict_ne].
  - rewrite negb_true_iff, Z.eqb_neq. split; congruence.
  - split; [intros _; discriminate | reflexivity].
  - split; [intros _; discriminate | reflexivity].
  - split; [discriminate | intros N; now elim N].
Qed.

(** *** Dispatch *)

(** On a level-triggered type the clearing loop only counts. *)
Lemma clear_loop_level (fuel : nat) t (i : Z) (q : list (Payload num)) :
  isLevelTriggered t = true ->
  0 <= i -> (length q <= fuel + Z.to_nat i)%nat ->
  clear_loop fuel t i q = Some q.
Proof.
  intros Ht. revert i.
  induction fuel as [|fuel IH]; intros i Hi Hlen; cbn [clear_loop].
  - replace (i <? Z.of_nat (length q)) with false by (symmetry; apply Z.ltb_ge; lia).
    reflexivity.
  - destruct (i <? Z.of_nat (length q)); [|reflexivity].
    replace (EventType_beq t whilemousedown || EventType_beq t whilekeydown) with true
      by (destruct t; try discriminate Ht; reflexivity).
    apply IH; lia.
Qed.

(** On any other type the loop removes the element at index [i], steps
    to [i + 1], and so skips the element that has just moved to [i]: with
    [d] the part already passed and [r] the part ahead, the elements at
    the odd positions of [r] stay. *)
Lemma clear_loop_edge (fuel : nat) t (d r : list (Payload num)) :
  isLevelTriggered t = false ->
  (length r <= fuel)%nat ->
  clear_loop fuel t (Z.of_nat (length d)) (d ++ r)
    = Some (d ++ JSArray.odd_positions r).
Proof.
  intros Ht.
  assert (Hb : EventType_beq t whilemousedown || EventType_beq t whilekeydown = false)
    by (destruct t; try discriminate Ht; reflexivity).
  revert d r.
  induction fuel as [|fuel IH]; intros d r Hlen; cbn [clear_loop].
  - destruct r; [|cbn in Hlen; lia].
    rewrite app_nil_r.
    replace (Z.of_nat (length d) <? Z.of_nat (length d)) with false
      by (symmetry; apply Z.ltb_ge; lia).
    cbn [JSArray.odd_positions]. now rewrite app_nil_r.
  - destruct r as [|a r].
    + rewrite app_nil_r.
      replace (Z.of_nat (length d) <? Z.of_nat (length d)) with false
        by (symmetry; apply Z.ltb_ge; lia).
      cbn [JSArray.odd_positions]. now rewrite app_nil_r.
    + replace (Z.of_nat (length d) <? Z.of_nat (length (d ++ a :: r))) with true
        by (symmetry; apply Z.ltb_lt; rewrite length_app; cbn [length]; lia).
      rewrite Hb, splice_at.
      destruct r as [|b r].
      * rewrite app_nil_r. cbn [JSArray.odd_positions]. rewrite app_nil_r.
        destruct fuel; cbn [clear_loop];
          replace (Z.of_nat (length d) + 1 <? Z.of_nat (length d)) with false
            by (symmetry; apply Z.ltb_ge; lia); reflexivity.
      * cbn [JSArray.odd_positions].
        replace (d ++ b :: r) with ((d ++ [b]) ++ r) by (now rewrite <- app_assoc).
        replace (Z.of_nat (length d) + 1) with (Z.of_nat (length (d ++ [b])))
          by (rewrite length_app; cbn [length]; lia).
        rewrite IH by (cbn [length] in Hlen; lia).
        now rewrite <- app_assoc.
Qed.

Lemma dispatch_type_spec t h :
  dispatch_type t h =
  Some (set_queuedEventPayloads
          (assign (queuedEventPayloads h) t
             (if isLevelTriggered t then queuedEventPayloads h t
              else JSArray.odd_positions (queuedEventPayloads h t))) h,
        invocations (callbackRegistry h t) (queuedEventPayloads h t)).
Proof.
  unfold dispatch_type.
  destruct (isLevelTriggered t) eqn:E.
  - rewrite clear_loop_level; [reflexivity | exact E | lia | cbn; lia].
  - rewrite (clear_loop_edge _ t [] (queuedEventPayloads h t));
      [reflexivity | exact E | cbn; lia].
Qed.

(** What [dispatchQueue] does, for every handler: it returns; every
    callback of a type is called on every payload queued for that type,
    callback by callback in registration order and, for each callback,
    payload by payload in queue order; the registry and the two
    level-triggered queues are as before; every other queue keeps the
    payloads that stood at its odd indices. *)
Lemma dispatchQueue_spec h :
  exists h' log,
    dispatchQueue h = Some (h', log)
    /\ log = map (fun t => (t, invocations (callbackRegistry h t) (queuedEventPayloads h t)))
               keys
    /\ (forall t, callbackRegistry h' t = callbackRegistry h t)
    /\ (forall t, queuedEventPayloads h' t =
                  if isLevelTriggered t then queuedEventPayloads h t
                  else JSArray.odd_positions (queuedEventPayloads h t)).
Proof.
  unfold dispatchQueue, keys. cbn [dispatch_types].
  repeat (rewrite dispatch_type_spec;
          cbn [callbackRegistry queuedEventPayloads set_queuedEventPayloads]).
  eexists _, _. split; [reflexivity|]. cbn [isLevelTriggered map].
  split; [reflexivity|]. split; [reflexivity|].
  intros t; destruct t; reflexivity.
Qed.

(** A queue of at most one payload is emptied by the dispatch. *)
Lemma dispatchQueue_short_queue h t :
  isLevelTriggered t = false -> (length (queuedEventPayloads h t) <= 1)%nat ->
  exists h' log, dispatchQueue h = Some (h', log) /\ queuedEventPayloads h' t = [].
Proof.
  intros L S. destruct (dispatchQueue_spec h) as (h' & log & D & _ & _ & Q).
  exists h', log. split; [exact D|]. rewrite Q, L.
  destruct (queuedEventPayloads h t) as [|a [|b r]]; [reflexivity | reflexivity |].
  cbn [length] in S. lia.
Qed.

(** *** Registration *)

Lemma unregister_absent h t callback :
  ~ In callback (callbackRegistry h t) ->
  callbackRegistry (unregisterEventCallback t callback h) t
    = removelast (callbackRegistry h t).
Proof.
  intros Hn. unfold unregisterEventCallback.
  cbn [callbackRegistry set_callbackRegistry]. rewrite assign_same.
  unfold JSArray.indexOf. rewrite indexOf_from_absent.
  - apply splice_minus_one.
  - intros u Hu. apply Nat.eqb_neq. intros ->. now apply Hn.
Qed.

(** Of a registered callback the first reference, and only that one,
    is removed. *)
Lemma unregister_present h t callback (d r : list Callback) :
  callbackRegistry h t = d ++ callback :: r -> ~ In callback d ->
  callbackRegistry (unregisterEventCallback t callback h) t = d ++ r.
Proof.
  intros E Hn. unfold unregisterEventCallback.
  cbn [callbackRegistry set_callbackRegistry]. rewrite assign_same, E.
  unfold JSArray.indexOf. rewrite indexOf_from_first.
  - apply splice_at.
  - intros u Hu. apply Nat.eqb_neq. intros ->. now apply Hn.
  - apply Nat.eqb_refl.
Qed.

(** *** Queueing *)

Lemma queueEvent_accepting t payload h :
  enginePauseStateCallback (queueEvent t payload h) tt = enginePauseStateCallback h tt.
Proof.
  unfold queueEvent. destruct (enginePauseStateCallback h tt) eqn:E; cbn [negb].
  - destruct t; exact E.
  - exact E.
Qed.

Lemma queueEvent_registry t payload h u :
  callbackRegistry (queueEvent t payload h) u = callbackRegistry h u.
Proof.
  unfold queueEvent. destruct (enginePauseStateCallback h tt); cbn [negb];
    [destruct t|]; reflexivity.
Qed.

(** An accepted event goes to the end of the queue of its type. *)
Lemma queueEvent_running h t payload :
  enginePauseStateCallback h tt = true ->
  queuedEventPayloads (queueEvent t payload h) t = queuedEventPayloads h t ++ [payload].
Proof.
  intros E. unfold queueEvent. rewrite E. cbn [negb].
  destruct t; reflexivity.
Qed.

Lemma held_app k (q r : list (Payload num)) : held k (q ++ r) = (held k q + held k r)%nat.
Proof. unfold held. now rewrite filter_app, length_app. Qed.

Lemma filter_filter_weaker {A : Type} (P Q : A -> bool) (l : list A) :
  (forall a, P a = true -> Q a = true) -> filter P (filter Q l) = filter P l.
Proof.
  intros I. induction l as [|a l IH]; [reflexivity|]. cbn [filter].
  destruct (Q a) eqn:EQ; cbn [filter].
  - now rewrite IH.
  - destruct (P a) eqn:EP; [|exact IH]. rewrite (I a EP) in EQ. discriminate.
Qed.

(** One accepted event that is not an [onkeyup] for [k]: the entries
    held for [k] are one more if the event presses [k], and as many as
    before otherwise. *)
Lemma held_after_event k t payload h :
  enginePauseStateCallback h tt = true ->
  releasesKey k (t, payload) = false ->
  held k (queuedEventPayloads (queueEvent t payload h) whilekeydown)
  = (held k (queuedEventPayloads h whilekeydown)
     + if pressesKey k (t, payload) then 1 else 0)%nat.
Proof.
  intros E R. unfold queueEvent. rewrite E. cbn [negb].
  unfold pressesKey, releasesKey in *. cbn [fst snd] in *.
  destruct t; cbn [EventType_beq orb andb] in *;
    cbn [queuedEventPayloads enqueue set_queuedEventPayloads assign EventType_beq];
    try (rewrite Nat.add_0_r; reflexivity).
  - (* onkeydown *)
    unfold JSArray.push. rewrite held_app. f_equal.
    unfold held, carriesKey. cbn [filter key with_type].
    destruct (negb _); reflexivity.
  - (* whilekeydown *)
    unfold JSArray.push. rewrite held_app. f_equal.
    unfold held, carriesKey. cbn [filter].
    destruct (negb _); reflexivity.
  - (* onkeyup *)
    rewrite Nat.add_0_r. unfold held. f_equal. apply filter_filter_weaker.
    intros event P. unfold carriesKey in *.
    apply negb_true_iff in P. apply negb_false_iff in R.
    destruct (key event) as [u|], (key payload) as [v|]; cbn [strict_ne] in *;
      try reflexivity; try discriminate.
    apply negb_false_iff, String.eqb_eq in P. apply negb_true_iff in R.
    apply negb_true_iff. rewrite P. rewrite String.eqb_sym. exact R.
Qed.

Lemma held_after_events k (events : list (EventType * Payload num)) : forall h,
  enginePauseStateCallback h tt = true ->
  (forall event, In event events -> releasesKey k event = false) ->
  held k (queuedEventPayloads (queueEvents events h) whilekeydown)
  = (held k (queuedEventPayloads h whilekeydown)
     + length (filter (pressesKey k) events))%nat.
Proof.
  induction events as [|[t payload] rest IH]; intros h E R; cbn [queueEvents filter].
  - cbn [length]. lia.
  - rewrite IH.
    + rewrite held_after_event; [| exact E | apply R; now left].
      destruct (pressesKey k (t, payload)); cbn [length]; lia.
    + now rewrite queueEvent_accepting.
    + intros event I. apply R. now right.
Qed.

Lemma queueEvent_keydown h payload :
  enginePauseStateCallback h tt = true ->
  queuedEventPayloads (queueEvent onkeydown payload h) onkeydown
    = queuedEventPayloads h onkeydown ++ [payload]
  /\ queuedEventPayloads (queueEvent onkeydown payload h) whilekeydown
    = queuedEventPayloads h whilekeydown ++ [with_type whilekeydown payload].
Proof. intros E. unfold queueEvent. rewrite E. now split. Qed.

Lemma queueEvent_mousedown h payload :
  enginePauseStateCallback h tt = true ->
  queuedEventPayloads (queueEvent onmousedown payload h) onmousedown
    = queuedEventPayloads h onmousedown ++ [payload]
  /\ queuedEventPayloads (queueEvent onmousedown payload h) whilemousedown
    = queuedEventPayloads h whilemousedown ++ [with_type whilemousedown payload].
Proof. intros E. unfold queueEvent. rewrite E. now split. Qed.

Lemma queueEvent_keyup h payload :
  enginePauseStateCallback h tt = true ->
  queuedEventPayloads (queueEvent onkeyup payload h) whilekeydown
    = filter (fun event => strict_ne String.eqb (key event) (key payload))
        (queuedEventPayloads h whilekeydown).
Proof. intros E. unfold queueEvent. rewrite E. reflexivity. Qed.

Lemma queueEvent_mouseup h payload :
  enginePauseStateCallback h tt = true ->
  queuedEventPayloads (queueEvent onmouseup payload h) whilemousedown
    = filter (fun event => strict_ne Z.eqb (button event) (button payload))
        (queuedEventPayloads h whilemousedown).
Proof. intros E. unfold queueEvent. rewrite E. reflexivity. Qed.


(** C7.  While events are accepted (the predicate answers [true]):
    [onkeydown] appends its payload, retyped [whilekeydown], to the
    [whilekeydown] queue, and [onmousedown] does the same for
    [whilemousedown]; nothing is de-duplicated, so two [onkeydown] events
    with the same payload, one after the other, append two entries, and
    the number of entries held for that key grows by exactly two; over
    any sequence of accepted events none of which is an [onkeyup] for a
    key [k], the entries held for [k] grow by one for each event that
    presses [k];
    [onkeyup] leaves in the [whilekeydown] queue exactly the entries whose
    key differs from its own, and [onmouseup] leaves in the
    [whilemousedown] queue exactly the entries whose button differs from
    its own. *)
Theorem level_triggered_queues h payload :
  enginePauseStateCallback h tt = true ->
  let w := with_type whilekeydown payload in
  let m := with_type whilemousedown payload in
  queuedEventPayloads (queueEvent onkeydown payload h) whilekeydown
    = queuedEventPayloads h whilekeydown ++ [w]
  /\ queuedEventPayloads (queueEvent onmousedown payload h) whilemousedown
    = queuedEventPayloads h whilemousedown ++ [m]
  /\ queuedEventPayloads (queueEvent onkeydown payload (queueEvent onkeydown payload h))
       whilekeydown
    = queuedEventPayloads h whilekeydown ++ [w; w]
  /\ (forall k, key payload = Some k ->
        held k (queuedEventPayloads
                  (queueEvent onkeydown payload (queueEvent onkeydown payload h))
                  whilekeydown)
        = (held k (queuedEventPayloads h whilekeydown) + 2)%nat)
  /\ (forall k events,
        (forall event, In event events -> releasesKey k event = false) ->
        held k (queuedEventPayloads (queueEvents events h) whilekeydown)
        = (held k (queuedEventPayloads h whilekeydown)
           + length (filter (pressesKey k) events))%nat)
  /\ (forall event,
        In event (queuedEventPayloads (queueEvent onkeyup payload h) whilekeydown)
        <-> In event (queuedEventPayloads h whilekeydown) /\ key event <> key payload)
  /\ (forall event,
        In event (queuedEventPayloads (queueEvent onmouseup payload h) whilemousedown)
        <-> In event (queuedEventPayloads h whilemousedown)
            /\ button event <> button payload).
Proof.
  intros E w m.
  assert (E' : enginePauseStateCallback (queueEvent onkeydown payload h) tt = true)
    by now rewrite queueEvent_accepting.
  assert (K2 : queuedEventPayloads
                 (queueEvent onkeydown payload (queueEvent onkeydown payload h))
                 whilekeydown
               = queuedEventPayloads h whilekeydown ++ [w; w]).
  { rewrite (proj2 (queueEvent_keydown _ payload E')),
      (proj2 (queueEvent_keydown _ payload E)).
    now rewrite <- app_assoc. }
  split; [apply (queueEvent_keydown _ _ E)|].
  split; [apply (queueEvent_mousedown _ _ E)|].
  split; [exact K2|].
  split.
  { intros k Hk. rewrite K2, held_app. f_equal.
    unfold held, carriesKey, w; cbn [filter key with_type]. rewrite Hk.
    cbn [strict_ne]. rewrite String.eqb_refl. reflexivity. }
  split; [intros k events R; now apply held_after_events|].
  split.
  - intros event.
    rewrite (queueEvent_keyup _ _ E), filter_In, strict_ne_string. reflexivity.
  - intros event.
    rewrite (queueEvent_mouseup _ _ E), filter_In, strict_ne_Z. reflexivity.
Qed.

End EventHandlerFacts.


Lemma level_triggered_queues_witness :
  EventHandler.held "a"
    (EventHandler.queuedEventPayloads
       (EventHandler.queueEvent EventHandler.onkeydown (Samples.keyPayload (num := Q) "a")
          (EventHandler.queueEvent EventHandler.onkeydown (Samples.keyPayload "a")
             Samples.listening))
       EventHandler.whilekeydown)
  = 2%nat.
Proof.
  exact (proj1 (proj2 (proj2 (proj2
           (level_triggered_queues Samples.listening (Samples.keyPayload "a") eq_refl))))
           "a" eq_refl).
Defined.

(** C2.  Callback [7] is registered for [onmousemove] and two
    [onmousemove] payloads are queued.  [dispatchQueue] calls the callback
    on both, in the order in which they were queued, and then leaves the
    second payload in the queue: the clearing loop splices at index [i]
    and increments [i], so it passes over every other element. *)
Theorem dispatchQueue_leaves_payload_queued :
  exists h' log,
    EventHandler.dispatchQueue (Samples.two_moves_queued (num := Q)) = Some (h', log)
    /\ EventHandler.queuedEventPayloads Samples.two_moves_queued EventHandler.onmousemove
       = [Samples.movePayload 10%Q 10%Q; Samples.movePayload 11%Q 10%Q]
    /\ In (EventHandler.onmousemove,
           [(7%nat, Samples.movePayload 10%Q 10%Q); (7%nat, Samples.movePayload 11%Q 10%Q)])
         log
    /\ EventHandler.queuedEventPayloads h' EventHandler.onmousemove
       = [Samples.movePayload 11%Q 10%Q].
Proof.
  destruct (dispatchQueue_spec (Samples.two_moves_queued (num := Q)))
    as (h' & log & D & L & _ & P).
  exists h', log. split; [exact D|]. split; [reflexivity|].
  split.
  - rewrite L. apply in_map_iff. exists EventHandler.onmousemove.
    split; [reflexivity|]. unfold EventHandler.keys. cbn [In]. tauto.
  - rewrite P. reflexivity.
Qed.

(** C6.  Callbacks [1] and [2] are registered for [ontick]; callback
    [3] is not.  Unregistering [3] removes [2]: [indexOf] answers [-1],
    and [splice(-1, 1)] removes the last element. *)
Theorem unregister_absent_removes_last_callback :
  EventHandler.callbackRegistry (Samples.two_callbacks (num := Q)) EventHandler.ontick
    = [1%nat; 2%nat]
  /\ EventHandler.callbackRegistry
       (EventHandler.unregisterEventCallback EventHandler.ontick 3%nat
          (Samples.two_callbacks (num := Q)))
       EventHandler.ontick
     = [1%nat].
Proof. split; reflexivity. Qed.

(** ** The engine: what holds for every kind of number *)

Section EngineFacts.
Import Engine.
Context {num : Type} `{Number num}.
Implicit Types (e : Engine num) (t : list (Effect num)).

Lemma tickCount_app t t' : tickCount (t ++ t') = tickCount t + tickCount t'.
Proof. unfold tickCount. rewrite filter_app, length_app. lia. Qed.

Lemma no_tick_in_scene_tick (l : list Scene) (g : num) :
  filter isTick (map (fun scene => scene_tick (ID scene) g) l) = [].
Proof. induction l as [|s l IH]; [reflexivity | exact IH]. Qed.

Lemma no_tick_in_scene_render (l : list Scene) (g : num) :
  filter isTick (map (fun scene => scene_render (ID scene) g) l) = [].
Proof. induction l as [|s l IH]; [reflexivity | exact IH]. Qed.

(** One iteration queues one [ontick] event. *)
Lemma tickCount_tick_effects e : tickCount (tick_effects e) = 1.
Proof.
  unfold tick_effects, tickCount.
  rewrite !filter_app, no_tick_in_scene_tick. reflexivity.
Qed.

Lemma tickCount_render (g : num) e : tickCount (render g e) = 0.
Proof.
  unfold render, renderPreloadScreen, tickCount.
  destruct (isPreloaded e), (_isPaused e); cbn [negb orb];
    rewrite ?filter_app, ?no_tick_in_scene_render; reflexivity.
Qed.

Lemma tickCount_frame t (g : num) e :
  tickCount (requestAnimationFrame :: t ++ render g e) = tickCount t.
Proof.
  change (requestAnimationFrame :: t ++ render g e)
    with ([requestAnimationFrame] ++ t ++ render g e).
  rewrite !tickCount_app, tickCount_render.
  change (tickCount [requestAnimationFrame]) with 0. lia.
Qed.

Lemma no_render_in_tick_effects e f : ~ In (render_called f) (tick_effects e).
Proof.
  unfold tick_effects. rewrite !in_app_iff, in_map_iff. cbn [In].
  intros [[F|[]]|[[s [F _]]|[F|[]]]]; discriminate.
Qed.


(** *** The three ways through the loop *)

Lemma tickLoop_exit fuel e c :
  nge (lag e) (targetTickDurationMilliseconds e) && negb (isPaused e) = false ->
  tickLoop fuel e c = Some (e, c, []).
Proof. intros E. destruct fuel; cbn [tickLoop]; now rewrite E. Qed.

Lemma tickLoop_break fuel e c :
  nge (lag e) (targetTickDurationMilliseconds e) && negb (isPaused e) = true ->
  maxUpdatesPerFrame e <= c + 1 ->
  tickLoop (S fuel) e c = Some (set_lag (of_Z 0) (ticked e), c + 1, tick_effects e).
Proof.
  intros E Hc. cbn [tickLoop]. rewrite E.
  cbn [maxUpdatesPerFrame set_updatesSinceEngineStart set_lag].
  replace (c + 1 >=? maxUpdatesPerFrame e) with true by (symmetry; apply Z.geb_le; lia).
  reflexivity.
Qed.

Lemma tickLoop_continue fuel e c :
  nge (lag e) (targetTickDurationMilliseconds e) && negb (isPaused e) = true ->
  c + 1 < maxUpdatesPerFrame e ->
  tickLoop (S fuel) e c =
  match tickLoop fuel (ticked e) (c + 1) with
  | Some (e', c', t') => Some (e', c', tick_effects e ++ t')
  | None => None
  end.
Proof.
  intros E Hc. cbn [tickLoop]. rewrite E.
  cbn [maxUpdatesPerFrame set_updatesSinceEngineStart set_lag].
  replace (c + 1 >=? maxUpdatesPerFrame e) with false; [reflexivity|].
  symmetry. rewrite Z.geb_leb. apply Z.leb_gt. lia.
Qed.

Lemma same_setup_refl e : same_setup e e.
Proof. unfold same_setup. tauto. Qed.

(** The loop assigns [lag] and [updatesSinceEngineStart] only, counts one
    tick per iteration, and does not render. *)
Lemma tickLoop_setup fuel : forall e c e' c' t,
  tickLoop fuel e c = Some (e', c', t) ->
  same_setup e e' /\ tickCount t = c' - c
  /\ forall f, ~ In (render_called f) t.
Proof.
  induction fuel as [|fuel IH]; intros e c e' c' t;
    destruct (nge (lag e) (targetTickDurationMilliseconds e) && negb (isPaused e)) eqn:E.
  - cbn [tickLoop]. rewrite E. discriminate.
  - rewrite (tickLoop_exit _ _ _ E). intros Q; injection Q as <- <- <-.
    split; [apply same_setup_refl|]. split; [unfold tickCount; cbn; lia | intros f []].
  - destruct (Z_lt_le_dec (c + 1) (maxUpdatesPerFrame e)) as [L|L].
    + rewrite (tickLoop_continue _ _ _ E L).
      destruct (tickLoop fuel (ticked e) (c + 1)) as [[[e1 c1] t1]|] eqn:E1; [|discriminate].
      intros Q. assert (Qe : e' = e1) by congruence. assert (Qc : c' = c1) by congruence.
      assert (Qt : t = tick_effects e ++ t1) by congruence. subst e' c' t. clear Q.
      apply IH in E1. destruct E1 as (S & C & R).
      rewrite tickCount_app, tickCount_tick_effects, C.
      split; [exact S|]. split; [lia|].
      intros f F. apply in_app_or in F. destruct F as [F|F]; [|now apply (R f)].
      now apply no_render_in_tick_effects in F.
    + rewrite (tickLoop_break _ _ _ E L).
      intros Q. assert (Qe : e' = set_lag (of_Z 0) (ticked e)) by congruence.
      assert (Qc : c' = c + 1) by congruence.
      assert (Qt : t = tick_effects e) by congruence. subst e' c' t. clear Q.
      rewrite tickCount_tick_effects.
      split; [unfold same_setup; cbn; tauto|]. split; [lia|].
      intros f. apply no_render_in_tick_effects.
  - rewrite (tickLoop_exit _ _ _ E). intros Q; injection Q as <- <- <-.
    split; [apply same_setup_refl|]. split; [unfold tickCount; cbn; lia | intros f []].
Qed.

(** The fuel [update] gives the loop is enough. *)
Lemma tickLoop_total fuel : forall e c,
  (c = 0 \/ c < maxUpdatesPerFrame e) -> 0 <= c ->
  (Z.to_nat (Z.max 1 (maxUpdatesPerFrame e) - c) <= fuel)%nat ->
  exists r, tickLoop fuel e c = Some r.
Proof.
  induction fuel as [|fuel IH]; intros e c Hc H0 Hf.
  - exfalso. lia.
  - destruct (nge (lag e) (targetTickDurationMilliseconds e) && negb (isPaused e)) eqn:E.
    + destruct (Z_lt_le_dec (c + 1) (maxUpdatesPerFrame e)) as [L|L].
      * rewrite (tickLoop_continue _ _ _ E L).
        destruct (IH (ticked e) (c + 1)) as [[[e1 c1] t1] ->]; cbn; try lia.
        eexists; reflexivity.
      * rewrite (tickLoop_break _ _ _ E L). eexists; reflexivity.
    + rewrite (tickLoop_exit _ _ _ E). eexists; reflexivity.
Qed.


(** *** The disposal sweep *)

(** [removeScene] has no [return], so the filter callback
    [!(flag && undefined)] is [true] for every entry: all are kept. *)
Lemma sweep_filter_spec : forall (entries : list (string * Scene)) e,
  fst (sweep_filter entries e) = entries
  /\ same_but_scenes e (snd (sweep_filter entries e)).
Proof.
  induction entries as [|[key scene] rest IH]; intros e; cbn [sweep_filter].
  - split; [reflexivity|]. unfold same_but_scenes; tauto.
  - destruct (isQueuedForDisposal scene); cbn [removeScene truthy negb].
    + destruct (IH (set_scenes (JSMap.delete (ID scene) (scenes e)) e)) as [K S].
      destruct (sweep_filter rest _) as [kept e1]. cbn [fst snd] in *.
      split; [now rewrite K|]. unfold same_but_scenes in *; cbn in S. exact S.
    + destruct (IH e) as [K S].
      destruct (sweep_filter rest e) as [kept e1]. cbn [fst snd] in *.
      split; [now rewrite K | exact S].
Qed.

Lemma sweep_spec e :
  scenes (sweep e) = JSMap.from_entries (scenes e) /\ same_but_scenes e (sweep e).
Proof.
  unfold sweep, JSMap.entries.
  destruct (sweep_filter_spec (scenes e) e) as [K S].
  destruct (sweep_filter (scenes e) e) as [kept e1]. cbn [fst snd] in *.
  subst kept. split; [reflexivity|]. unfold same_but_scenes in *; cbn. exact S.
Qed.

Lemma update_scenes timestamp e e' t :
  update timestamp e = Some (e', t) ->
  scenes e' = JSMap.from_entries (scenes e) \/ scenes e' = scenes e.
Proof.
  unfold update. destruct (negb (isPreloaded e)).
  - intros Q; injection Q as <- _. now right.
  - match goal with |- context [tickLoop ?f ?x 0] =>
      destruct (tickLoop f x 0) as [[[e2 c2] t2]|] eqn:E end; [|discriminate].
    intros Q; injection Q as <- _.
    apply tickLoop_setup in E. destruct E as [[S _] _]. cbn in S.
    left. rewrite (proj1 (sweep_spec e2)). now rewrite S.
Qed.

(** A frame leaves the registry as it found it, disposal flags or not. *)
Lemma update_keeps_registry timestamp e e' t :
  NoDup (map fst (scenes e)) ->
  update timestamp e = Some (e', t) -> scenes e' = scenes e.
Proof.
  intros N U. destruct (update_scenes _ _ _ _ U) as [S|S]; [|exact S].
  now rewrite S, from_entries_unique.
Qed.

(** *** Starting *)

Lemma update_isStarted timestamp e e' t :
  update timestamp e = Some (e', t) -> isStarted e' = isStarted e.
Proof.
  unfold update. destruct (negb (isPreloaded e)).
  - intros Q; injection Q as <- _. reflexivity.
  - match goal with |- context [tickLoop ?f ?x 0] =>
      destruct (tickLoop f x 0) as [[[e2 c2] t2]|] eqn:E end; [|discriminate].
    intros Q; injection Q as <- _.
    apply tickLoop_setup in E. destruct E as [[_ [S _]] _]. cbn in S.
    destruct (sweep_spec e2) as [_ B]. unfold same_but_scenes in B.
    decompose [and] B. congruence.
Qed.

Lemma run_isStarted calls : forall e e',
  run calls e = Some e' -> isStarted e' = isStarted e.
Proof.
  induction calls as [|[ts| |] rest IH]; intros e e'; cbn [run].
  - now intros [= <-].
  - destruct (update ts e) as [[e1 t1]|] eqn:U; [|discriminate].
    intros R. rewrite (IH _ _ R). exact (update_isStarted _ _ _ _ U).
  - intros R. now rewrite (IH _ _ R).
  - intros R. now rewrite (IH _ _ R).
Qed.

Lemma start_sets_isStarted host now e e' t :
  start host now e = inr (e', t) -> isStarted e' = true.
Proof.
  unfold start, start_prologue.
  destruct (assert _ _); [discriminate|].
  intros Q; injection Q as <- _. reflexivity.
Qed.

(** The flag is set after the [await]: a second call made while the
    first is still preloading passes the guard. *)
Lemma start_prologue_twice host host' e e1 t :
  start_prologue host e = inr (e1, t) ->
  exists e2 t', start_prologue host' e1 = inr (e2, t').
Proof.
  unfold start_prologue. destruct (isStarted e) eqn:I; cbn [negb assert]; [discriminate|].
  intros Q; injection Q as <- _. cbn. rewrite I. cbn. eexists _, _. reflexivity.
Qed.

(** C9.  Once a call of [start] has completed, the engine is started,
    and it stays so whatever frames, pauses and resumes follow; a later
    call of [start] fails at its first statement with the error
    "Engine has already been started.", and does nothing else. *)
Theorem start_twice_fails (host host' : Host num) (now now' : num)
  (calls : list (Call num)) e e1 e2 t :
  start host now e = inr (e1, t) ->
  run calls e1 = Some e2 ->
  start host' now' e2 = inl (mkError "Engine has already been started.").
Proof.
  intros S R.
  assert (I : isStarted e2 = true)
    by (rewrite (run_isStarted _ _ _ R); exact (start_sets_isStarted _ _ _ _ _ S)).
  unfold start, start_prologue. rewrite I. reflexivity.
Qed.

End EngineFacts.

Lemma start_twice_fails_witness :
  Engine.start Samples.host (of_Z 9000) (Samples.paused (num := spec_float))
  = inl (Engine.mkError "Engine has already been started.").
Proof.
  eapply (start_twice_fails Samples.host Samples.host (of_Z 0) (of_Z 9000)
            [Engine.call_pause] Samples.created).
  - reflexivity.
  - reflexivity.
Defined.

(** ** The engine in exact arithmetic *)

Section ExactPacing.
Import Engine.
Implicit Types (e : Engine Q) (t : list (Effect Q)).
Local Open Scope Q_scope.








End ExactPacing.

(** ** The engine in binary64 *)

(** Finds an element in a list given in full. *)
Ltac pick := cbn [In]; repeat (first [left; reflexivity | right]).

Section Binary64Pacing.
Import Engine.


End Binary64Pacing.




(** In exact arithmetic the frame of the scenario takes three ticks and
    leaves no lag, 50 being three times 1000 / 60: that two ticks run
    in the engine is an effect of rounding. *)
Remark frame_of_50ms_exact :
  exists e' t,
    Engine.update 50%Q (Samples.running (num := Q)) = Some (e', t)
    /\ Engine.tickCount t = 3 /\ (Engine.lag e' == 0)%Q.
Proof. eexists _, _. split; [vm_compute; reflexivity|]. split; reflexivity. Qed.



(** C3.  The scene "menu" is flagged for disposal.  In the frame that
    follows it is ticked and rendered, and after the sweep of that frame
    the registry still holds it: [removeScene] returns nothing, so the
    filter callback [!(scene.isQueuedForDisposal && this.removeScene(scene))]
    keeps the entry, and the map it has just deleted from is replaced by
    the one built from the kept entries.  The next frame ticks and
    renders "menu" again. *)
Theorem disposal_sweep_keeps_flagged_scene :
  Engine.isQueuedForDisposal Samples.menu = true
  /\ exists e1 t1 e2 t2,
       Engine.update (of_Z 50) (Samples.running (num := spec_float)) = Some (e1, t1)
       /\ (exists f, In (Engine.scene_render "menu" f) t1)
       /\ JSMap.has "menu" (Engine.scenes e1) = true
       /\ Engine.scenes e1 = Engine.scenes (Samples.running (num := spec_float))
       /\ Engine.update (of_Z 100) e1 = Some (e2, t2)
       /\ (exists dt, In (Engine.scene_tick "menu" dt) t2)
       /\ (exists f, In (Engine.scene_render "menu" f) t2)
       /\ JSMap.has "menu" (Engine.scenes e2) = true.
Proof.
  split; [reflexivity|].
  destruct (Engine.update (of_Z 50) (Samples.running (num := spec_float)))
    as [[e1 t1]|] eqn:U1; [|vm_compute in U1; discriminate].
  destruct (Engine.update (of_Z 100) e1) as [[e2 t2]|] eqn:U2.
  2: { vm_compute in U1. injection U1 as <- _. vm_compute in U2. discriminate. }
  exists e1, t1, e2, t2.
  vm_compute in U1. injection U1 as <- <-.
  vm_compute in U2. injection U2 as <- <-.
  split; [reflexivity|].
  split; [eexists; pick|].
  split; [reflexivity|]. split; [reflexivity|]. split; [reflexivity|].
  split; [eexists; pick|].
  split; [eexists; pick|].
  reflexivity.
Qed.

(** ** Actors *)

Section ActorFacts.
Import Actor.
Context {num : Type} `{Number num}.
Implicit Types (a : Actor num).

(** Whether the drawing returns or throws, the actor it leaves behind is
    the same. *)
Lemma performDrawCalls_after interp a :
  after (performDrawCalls interp a) =
  if doDraw a
  then set_pos (Vector.add (lastState_pos a)
                  (Vector.mult (Vector.sub (pos a) (lastState_pos a)) interp)) a
  else a.
Proof.
  unfold performDrawCalls. destruct (doDraw a); cbn [negb]; [|reflexivity].
  destruct (if truthy (textureID _) then _ else _); [|reflexivity].
  destruct (if truthy (animationID _) then _ else _); reflexivity.
Qed.

(** C10.  With drawing enabled, [performDrawCalls] assigns to [pos] the
    value [lastState.pos + (pos - lastState.pos) * interp], component by
    component, and leaves [vel], [size] and [lastState] as they were;
    with drawing disabled it returns at once, without an effect and
    without a change to the actor. *)
Theorem performDrawCalls_interpolates interp a :
  let a' := after (performDrawCalls interp a) in
  (doDraw a = true ->
     pos a' = Vector.add (lastState_pos a)
                (Vector.mult (Vector.sub (pos a) (lastState_pos a)) interp)
     /\ Vector.x (pos a')
        = nadd (Vector.x (lastState_pos a))
            (nmul (nsub (Vector.x (pos a)) (Vector.x (lastState_pos a))) interp)
     /\ Vector.y (pos a')
        = nadd (Vector.y (lastState_pos a))
            (nmul (nsub (Vector.y (pos a)) (Vector.y (lastState_pos a))) interp)
     /\ vel a' = vel a /\ size a' = size a
     /\ lastState_pos a' = lastState_pos a /\ lastState_vel a' = lastState_vel a)
  /\ (doDraw a = false -> performDrawCalls interp a = returns a [] /\ a' = a).
Proof.
  cbn zeta. rewrite performDrawCalls_after. split; intros D.
  - rewrite D. repeat split.
  - rewrite D. split; [|reflexivity]. unfold performDrawCalls. now rewrite D.
Qed.

(** One call of [updateAnimation] on an actor with an active animation
    whose current frame exists: the animation manager afterwards. *)
Lemma updateAnimation_manager delta a (animationState : AnimationState num)
  (currentFrame : AnimationKeyframe num) :
  truthy (animationID (animationManager a)) = true ->
  lookup (animations (animationManager a)) (animationID (animationManager a))
    = Some animationState ->
  nth_error (frames animationState) (animationFrame (animationManager a))
    = Some currentFrame ->
  animationManager (after (updateAnimation delta a)) =
  let sum := nadd (deltaSum (animationManager a)) delta in
  if nge sum (duration currentFrame) then
    {| animations := animations (animationManager a);
       animationID := animationID (animationManager a);
       animationFrame :=
         ((animationFrame (animationManager a) + 1) mod length (frames animationState))%nat;
       deltaSum := nsub sum (duration currentFrame) |}
  else
    {| animations := animations (animationManager a);
       animationID := animationID (animationManager a);
       animationFrame := animationFrame (animationManager a);
       deltaSum := sum |}.
Proof.
  intros HT HA HF. unfold updateAnimation. rewrite HT, HA, HF. cbn [negb].
  cbn [animationManager set_animationManager deltaSum set_deltaSum].
  destruct (nge _ _); [|reflexivity].
  cbn [animationManager set_animationManager textureManager].
  destruct (lookup (textures _) _); reflexivity.
Qed.

End ActorFacts.

Section AnimationWrap.
Import Actor.
Implicit Types (a : Actor spec_float).

(** Three frames of 100 ms, advanced by 40 ms at a time from frame [0]
    with nothing accumulated.  After [n] calls 40 n = 100 q + r
    milliseconds have passed, [r] one of 0, 20, 40, 60, 80; the
    animation is at frame [q mod 3] with [r] milliseconds accumulated.
    All the sums are integers, which binary64 adds and subtracts without
    rounding. *)
Lemma animation_wrap_invariant a (animationState : AnimationState spec_float)
  (k0 k1 k2 : AnimationKeyframe spec_float) :
  truthy (animationID (animationManager a)) = true ->
  lookup (animations (animationManager a)) (animationID (animationManager a))
    = Some animationState ->
  frames animationState = [k0; k1; k2] ->
  duration k0 = of_Z 100 -> duration k1 = of_Z 100 -> duration k2 = of_Z 100 ->
  animationFrame (animationManager a) = 0%nat ->
  deltaSum (animationManager a) = of_Z 0 ->
  forall n : nat, exists q r : nat,
    (40 * n = 100 * q + r)%nat
    /\ (r = 0 \/ r = 20 \/ r = 40 \/ r = 60 \/ r = 80)%nat
    /\ animationManager (updateAnimation_times n (of_Z 40) a) = pacing a q r.
Proof.
  intros HT HA HF D0 D1 D2 F0 S0.
  induction n as [|n (q & r & E & R & M)].
  - exists 0%nat, 0%nat. split; [reflexivity|]. split; [now left|].
    cbn [updateAnimation_times]. unfold pacing.
    destruct (animationManager a) as [an id fr ds].
    cbn [animationFrame deltaSum animations animationID] in *. subst fr ds. reflexivity.
  - cbn [updateAnimation_times].
    set (b := updateAnimation_times n (of_Z 40) a) in *.
    assert (K : exists k, nth_error (frames animationState) (q mod 3) = Some k
                          /\ duration k = of_Z 100).
    { rewrite HF. pose proof (Nat.mod_upper_bound q 3 ltac:(lia)) as B.
      destruct (q mod 3)%nat as [|[|[|m]]]; [exists k0 | exists k1 | exists k2 | lia];
        split; auto. }
    destruct K as (k & Kn & Kd).
    rewrite (updateAnimation_manager _ b animationState k);
      rewrite ?M; cbn [pacing animations animationID animationFrame deltaSum];
      try assumption.
    rewrite Kd, HF. cbn [length].
    assert (W : forall m, ((m mod 3 + 1) mod 3 = (m + 1) mod 3)%nat)
      by (intros m; now rewrite Nat.Div0.add_mod_idemp_l).
    destruct R as [-> | [-> | [-> | [-> | ->]]]].
    + exists q, 40%nat. split; [lia|]. split; [tauto|]. reflexivity.
    + exists q, 60%nat. split; [lia|]. split; [tauto|]. reflexivity.
    + exists q, 80%nat. split; [lia|]. split; [tauto|]. reflexivity.
    + exists (q + 1)%nat, 0%nat. split; [lia|]. split; [tauto|].
      unfold pacing. rewrite W. reflexivity.
    + exists (q + 1)%nat, 20%nat. split; [lia|]. split; [tauto|].
      unfold pacing. rewrite W. reflexivity.
Qed.

End AnimationWrap.

(** C8.  The scenario, in binary64: an active animation of three frames
    of 100 ms each, at frame [0] with nothing accumulated, advanced by
    40 ms at a time, is after [n] calls at frame [(40 n / 100) mod 3].
    In general, for every kind of number: a call on an actor with an
    active animation whose current frame exists adds [delta] to
    [deltaSum]; if the sum has reached the duration of the current frame,
    that duration is subtracted and the frame index becomes its successor
    modulo the number of frames, so the last frame is followed by the
    first; otherwise the frame index stays. *)
Theorem animation_wrap :
  (forall (a : Actor.Actor spec_float)
          (animationState : Actor.AnimationState spec_float)
          (k0 k1 k2 : Actor.AnimationKeyframe spec_float),
      Actor.truthy (Actor.animationID (Actor.animationManager a)) = true ->
      Actor.lookup (Actor.animations (Actor.animationManager a))
        (Actor.animationID (Actor.animationManager a)) = Some animationState ->
      Actor.frames animationState = [k0; k1; k2] ->
      Actor.duration k0 = of_Z 100 -> Actor.duration k1 = of_Z 100 ->
      Actor.duration k2 = of_Z 100 ->
      Actor.animationFrame (Actor.animationManager a) = 0%nat ->
      Actor.deltaSum (Actor.animationManager a) = of_Z 0 ->
      forall n : nat,
        Actor.animationFrame
          (Actor.animationManager (Actor.updateAnimation_times n (of_Z 40) a))
        = ((40 * n / 100) mod 3)%nat)
  /\ (forall (num : Type) (N : Number num) (a : Actor.Actor num) (delta : num)
             (animationState : Actor.AnimationState num)
             (currentFrame : Actor.AnimationKeyframe num),
      Actor.truthy (Actor.animationID (Actor.animationManager a)) = true ->
      Actor.lookup (Actor.animations (Actor.animationManager a))
        (Actor.animationID (Actor.animationManager a)) = Some animationState ->
      nth_error (Actor.frames animationState)
        (Actor.animationFrame (Actor.animationManager a)) = Some currentFrame ->
      let sum := nadd (Actor.deltaSum (Actor.animationManager a)) delta in
      let m := Actor.animationManager (Actor.after (Actor.updateAnimation delta a)) in
      (nge sum (Actor.duration currentFrame) = true ->
         Actor.deltaSum m = nsub sum (Actor.duration currentFrame)
         /\ Actor.animationFrame m
            = ((Actor.animationFrame (Actor.animationManager a) + 1)
                 mod length (Actor.frames animationState))%nat)
      /\ (nge sum (Actor.duration currentFrame) = false ->
         Actor.deltaSum m = sum
         /\ Actor.animationFrame m = Actor.animationFrame (Actor.animationManager a))).
Proof.
  split.
  - intros a animationState k0 k1 k2 HT HA HF D0 D1 D2 F0 S0 n.
    destruct (animation_wrap_invariant a animationState k0 k1 k2
                HT HA HF D0 D1 D2 F0 S0 n) as (q & r & E & R & M).
    rewrite M. cbn [Actor.pacing Actor.animationFrame].
    f_equal. apply (Nat.div_unique _ _ _ r); lia.
  - intros num N a delta animationState currentFrame HT HA HF sum m.
    subst m. rewrite (updateAnimation_manager delta a animationState currentFrame HT HA HF).
    cbn zeta. fold sum.
    split; intros G; rewrite G; split; reflexivity.
Qed.

Lemma animation_wrap_witness :
  Actor.animationFrame
    (Actor.animationManager
       (Actor.updateAnimation_times 8 (of_Z 40) (Samples.walker (num := spec_float))))
  = 0%nat.
Proof.
  exact (proj1 animation_wrap Samples.walker Samples.walk _ _ _
           eq_refl eq_refl eq_refl eq_refl eq_refl eq_refl eq_refl eq_refl 8%nat).
Defined.

Lemma performDrawCalls_interpolates_witness :
  Actor.pos (Actor.after (Actor.performDrawCalls (1 # 2)%Q (Samples.walker (num := Q))))
  = Vector.vec (0 + (10 - 0) * (1 # 2))%Q (0 + (20 - 0) * (1 # 2))%Q.
Proof.
  exact (proj1 (proj1 (performDrawCalls_interpolates (1 # 2)%Q Samples.walker) eq_refl)).
Defined.

(** ** Actors: textures, animation states, updates *)

(** Objects used as dictionaries. *)
Section ObjectFacts.
Context {V : Type}.

Lemma lookup_has (m : JSMap.t V) (k : string) :
  JSMap.has k m = Actor.isSome (Actor.lookup m k).
Proof.
  unfold JSMap.has, Actor.lookup.
  induction m as [|[k' v] m IH]; [reflexivity|].
  cbn [existsb find fst]. destruct (String.eqb k' k); [reflexivity | exact IH].
Qed.

Lemma lookup_app (m m' : JSMap.t V) (k : string) :
  Actor.lookup (m ++ m') k =
  match Actor.lookup m k with Some v => Some v | None => Actor.lookup m' k end.
Proof.
  unfold Actor.lookup.
  induction m as [|[k' v] m IH]; [reflexivity|].
  cbn [app find fst]. destruct (String.eqb k' k); [reflexivity | exact IH].
Qed.

Lemma lookup_set_same (m : JSMap.t V) (k : string) (v : V) :
  Actor.lookup (JSMap.set k v m) k = Some v.
Proof.
  unfold JSMap.set. destruct (JSMap.has k m) eqn:E.
  - unfold JSMap.has in E. unfold Actor.lookup.
    induction m as [|[k' v'] m IH]; [discriminate|].
    cbn [existsb fst] in E. cbn [map find fst].
    destruct (String.eqb k' k) eqn:E'.
    + cbn [fst]. now rewrite String.eqb_refl.
    + cbn [fst]. rewrite E'. apply IH. exact E.
  - rewrite lookup_app. rewrite lookup_has in E.
    destruct (Actor.lookup m k); [discriminate|].
    unfold Actor.lookup. cbn [find fst]. now rewrite String.eqb_refl.
Qed.


Lemma lookup_delete_same (m : JSMap.t V) (k : string) :
  Actor.lookup (JSMap.delete k m) k = None.
Proof.
  unfold JSMap.delete, Actor.lookup.
  induction m as [|[k' v] m IH]; [reflexivity|].
  cbn [filter fst]. destruct (String.eqb k' k) eqn:E; cbn [negb]; [exact IH|].
  cbn [find fst]. rewrite E. exact IH.
Qed.


Lemma delete_absent (m : JSMap.t V) (k : string) :
  Actor.lookup m k = None -> JSMap.delete k m = m.
Proof.
  unfold JSMap.delete, Actor.lookup.
  induction m as [|[k' v] m IH]; [reflexivity|].
  cbn [filter fst find]. destruct (String.eqb k' k); [discriminate|].
  cbn [negb]. intros E. now rewrite IH.
Qed.

Lemma delete_set_absent (m : JSMap.t V) (k : string) (v : V) :
  Actor.lookup m k = None -> JSMap.delete k (JSMap.set k v m) = m.
Proof.
  intros E. unfold JSMap.set. rewrite lookup_has, E. cbn [Actor.isSome].
  unfold JSMap.delete. rewrite filter_app. cbn [filter fst].
  rewrite String.eqb_refl. cbn [negb]. rewrite app_nil_r.
  now apply delete_absent.
Qed.

End ObjectFacts.

Section ActorRegistryFacts.
Import Actor.
Context {num : Type} `{Number num}.


Lemma check_false c m : c = false -> check c m = inl (Failed (Engine.mkError m)).
Proof. intros ->. reflexivity. Qed.

Lemma set_textures_same (a : Actor num) :
  set_textureManager (set_textures (textures (textureManager a)) (textureManager a)) a = a.
Proof. destruct a as [? ? ? ? ? ? [? ? ?] ? ? ? ? ? ? ?]. reflexivity. Qed.

(** X1.  A texture that [addTexture] has added is removed again by
    [removeTexture] with the same identifier, which answers [true] and
    leaves the actor exactly as it was before the texture was added. *)
Theorem addTexture_removeTexture (a a1 : Actor num) (textureID : string)
  (imageBitmap : ImageBitmap num) (options : option (TextureOptions num)) :
  addTexture textureID imageBitmap options a = inr (true, a1) ->
  removeTexture textureID a1 = inr (true, a).
Proof.
  unfold addTexture.
  destruct (lookup (textures (textureManager a)) textureID) as [tex|] eqn:E;
    cbn [isSome]; [discriminate|].
  destruct options as [options|]; [|discriminate].
  destruct (options_spriteSize options) as [spriteSize|]; [|discriminate].
  destruct (check _ _) as [f|[]]; cbn [bind]; [discriminate|].
  intros [= <-]. unfold removeTexture.
  cbn [textureManager set_textureManager textures set_textures].
  rewrite lookup_set_same. cbn [isSome negb].
  rewrite delete_set_absent by exact E.
  cbn [Actor.textureID Actor.textureOffset].
  destruct a as [? ? ? ? ? ? [? ? ?] ? ? ? ? ? ? ?]. reflexivity.
Qed.


(** When [addAnimationState] returns, and what it has stored then. *)
Lemma addAnimationState_spec (a : Actor num) (animationID textureID : string)
  (options : AnimationOptions num) (r : bool) (a' : Actor num) :
  addAnimationState animationID textureID options a = inr (r, a') <->
  r = true
  /\ lookup (animations (animationManager a)) animationID = None
  /\ exists texture,
       lookup (textures (textureManager a)) textureID = Some texture
       /\ 0 < settled options texture <= frameCount texture
       /\ 0 <= options_startIndex options < frameCount texture
       /\ ngt (options_frameDuration options) (of_Z 0) = true
       /\ options_frames options <> Some []
       /\ a' = set_animationManager
                 (set_animations
                    (JSMap.set animationID
                       {| animation_textureID := textureID;
                          frames := keyframes options texture |}
                       (animations (animationManager a)))
                    (animationManager a)) a.
Proof.
  unfold addAnimationState, keyframes, settled.
  destruct (lookup (animations (animationManager a)) animationID) as [st|] eqn:E;
    cbn [isSome negb check Engine.assert bind].
  { split; [discriminate | intros (_ & D & _); discriminate]. }
  destruct (lookup (textures (textureManager a)) textureID) as [texture|] eqn:Et.
  2:{ split.
      - destruct (_ && _); cbn [bind]; [discriminate|].
        unfold check, Engine.assert. destruct (0 <? _); cbn [bind]; discriminate.
      - intros (_ & _ & texture & D & _). discriminate. }
  set (fc := if (options_frameCount options =? -1) && negb (isSome (options_frames options))
             then frameCount texture - options_startIndex options
             else options_frameCount options).
  assert (Efc : (if (options_frameCount options =? -1)
                       && negb (isSome (options_frames options))
                 then inr (frameCount texture - options_startIndex options)
                 else inr (options_frameCount options)) = (inr fc : Failure + Z)).
  { subst fc. now destruct (_ && _). }
  rewrite Efc. cbn [bind]. unfold check, Engine.assert.
  destruct (0 <? fc) eqn:C1; cbn [bind].
  2:{ split; [discriminate|]. intros (_ & _ & t & [= <-] & C & _). fold fc in C. lia. }
  destruct (fc <=? frameCount texture) eqn:C2; cbn [bind].
  2:{ split; [discriminate|]. intros (_ & _ & t & [= <-] & C & _). fold fc in C. lia. }
  destruct (0 <=? options_startIndex options) eqn:C3; cbn [bind].
  2:{ split; [discriminate|]. intros (_ & _ & t & [= <-] & _ & C & _). lia. }
  destruct (options_startIndex options <? frameCount texture) eqn:C4; cbn [bind].
  2:{ split; [discriminate|]. intros (_ & _ & t & [= <-] & _ & C & _). lia. }
  destruct (ngt (options_frameDuration options) (of_Z 0)) eqn:C5; cbn [bind].
  2:{ split; [discriminate|]. intros (_ & _ & t & [= <-] & _ & _ & C & _). discriminate. }
  destruct (options_frames options) as [fs|] eqn:Ef.
  - destruct fs as [|f fs]; cbn [length Nat.ltb Nat.leb bind].
    + split; [discriminate|]. intros (_ & _ & t & _ & _ & _ & _ & C & _). now elim C.
    + split.
      * intros [= <- <-]. split; [reflexivity|]. split; [reflexivity|].
        exists texture. fold fc. split; [reflexivity|]. split; [lia|]. split; [lia|].
        split; [reflexivity|]. split; [discriminate | reflexivity].
      * intros (-> & _ & t & [= <-] & _ & _ & _ & _ & ->). reflexivity.
  - split.
    + intros [= <- <-]. split; [reflexivity|]. split; [reflexivity|].
      exists texture. fold fc. split; [reflexivity|]. split; [lia|]. split; [lia|].
      split; [reflexivity|]. split; [discriminate | reflexivity].
    + intros (-> & _ & t & [= <-] & _ & _ & _ & _ & ->). reflexivity.
Qed.


(** X4.  Without [frames] and with the default frame count [-1], an
    accepted animation state holds the frames of the texture from
    [startIndex] to the last one, each of the given duration; the active
    animation is not changed. *)
Theorem addAnimationState_rest_of_sheet a a' (animationID textureID : string)
  (options : AnimationOptions num) (r : bool) :
  options_frameCount options = -1 -> options_frames options = None ->
  addAnimationState animationID textureID options a = inr (r, a') ->
  exists texture,
    lookup (textures (textureManager a)) textureID = Some texture
    /\ lookup (animations (animationManager a')) animationID
       = Some {| animation_textureID := textureID;
                 frames :=
                   map (fun i => {| index := options_startIndex options + Z.of_nat i;
                                    duration := options_frameDuration options |})
                     (seq 0 (Z.to_nat (frameCount texture - options_startIndex options))) |}
    /\ Actor.animationID (animationManager a') = Actor.animationID (animationManager a).
Proof.
  intros Ec Ef E. apply addAnimationState_spec in E.
  destruct E as (_ & L & texture & Lt & _ & _ & _ & _ & ->).
  exists texture. split; [exact Lt|].
  cbn [animationManager set_animationManager animations set_animations Actor.animationID].
  rewrite lookup_set_same. unfold keyframes, settled. rewrite Ec, Ef. cbn [isSome negb].
  split; reflexivity.
Qed.



End ActorRegistryFacts.

Section ActorInvariants.
Import Actor.
Context {num : Type} `{NumberMath num}.
Implicit Types (a : Actor num).



(** [updateAnimation] writes [deltaSum], [animationFrame] and
    [textureOffset] only, and moves the frame within the active
    animation. *)
Lemma updateAnimation_writes delta a :
  let a' := after (updateAnimation delta a) in
  animations (animationManager a') = animations (animationManager a)
  /\ animationID (animationManager a') = animationID (animationManager a)
  /\ textures (textureManager a') = textures (textureManager a)
  /\ textureID (textureManager a') = textureID (textureManager a)
  /\ pos a' = pos a /\ vel a' = vel a
  /\ lastState_pos a' = lastState_pos a /\ lastState_vel a' = lastState_vel a
  /\ update a' = update a /\ doDraw a' = doDraw a
  /\ (animationFrame (animationManager a') = animationFrame (animationManager a)
      \/ exists animationState,
           truthy (animationID (animationManager a)) = true
           /\ lookup (animations (animationManager a)) (animationID (animationManager a))
             = Some animationState
           /\ (animationFrame (animationManager a) < length (frames animationState))%nat
           /\ animationFrame (animationManager a')
              = ((animationFrame (animationManager a) + 1)
                   mod length (frames animationState))%nat).
Proof.
  cbn zeta. unfold updateAnimation.
  destruct (truthy _) eqn:T; cbn [negb]; [|cbn; tauto].
  destruct (lookup (animations _) _) as [st|] eqn:E; [|cbn; tauto].
  destruct (nth_error _ _) as [k|] eqn:En; [|cbn; tauto].
  cbn [animationManager set_animationManager deltaSum set_deltaSum].
  destruct (nge _ _); [|cbn; tauto].
  assert (B : (animationFrame (animationManager a) < length (frames st))%nat).
  { apply nth_error_Some. congruence. }
  cbn [animationManager set_animationManager textureManager].
  destruct (lookup (textures _) _); cbn; repeat (split; [reflexivity|]);
    right; exists st; auto.
Qed.








End ActorInvariants.

Section ActorRuns.
Import Actor.
Context {num : Type} `{NumberMath num}.
Implicit Types (a : Actor num).








(** X9.  [removeTexture] does not look at the animation states: once
    the texture of the active animation is removed, every
    [performDrawCalls] of a drawn actor throws. *)
Theorem removeTexture_breaks_drawing a a1 (animationState : AnimationState num)
  (interp : num) :
  doDraw a = true ->
  truthy (animationID (animationManager a)) = true ->
  lookup (animations (animationManager a)) (animationID (animationManager a))
    = Some animationState ->
  removeTexture (animation_textureID animationState) a = inr (true, a1) ->
  threw (performDrawCalls interp a1) = true.
Proof.
  intros D T L. unfold removeTexture. destruct (negb _); [discriminate|].
  intros [= <-]. unfold performDrawCalls.
  cbn [doDraw set_textureManager]. rewrite D. cbn [negb].
  cbn [textureManager set_pos set_textureManager animationManager textureID set_textures].
  assert (M : drawTextureFromMap
                (set_pos
                   (Vector.add (lastState_pos a)
                      (Vector.mult (Vector.sub (pos a) (lastState_pos a)) interp))
                   (set_textureManager
                      (set_textures
                         (JSMap.delete (animation_textureID animationState)
                            (textures (textureManager a))) (textureManager a)) a)) = None).
  { unfold drawTextureFromMap.
    cbn [textureManager set_pos set_textureManager animationManager textures set_textures].
    rewrite L. now rewrite lookup_delete_same. }
  cbn [lastState_pos pos set_textureManager] in *.
  destruct (if truthy _ then _ else _) as [t1|]; [|reflexivity].
  rewrite T, M. reflexivity.
Qed.

End ActorRuns.

Section Reindex.
Import Actor.
Context {num : Type} `{Number num}.

Lemma lookup_map {V W : Type} (f : V -> W) (m : list (string * V)) (k : string) :
  lookup (map (fun kv => (fst kv, f (snd kv))) m) k = option_map f (lookup m k).
Proof.
  unfold lookup. induction m as [|[k' v] m IH]; [reflexivity|].
  cbn [map find fst snd]. destruct (String.eqb k' k); [reflexivity | exact IH].
Qed.

(** X10.  The [index] of a keyframe is never read: replacing every
    index by any other leaves what [updateAnimation] and
    [performDrawCalls] do (the texture offset, the effects on the canvas,
    whether they throw) as it was.  The source rectangle is computed from
    the position of the frame in the animation. *)
Theorem keyframe_index_is_ignored (g : Z -> Z) (delta interp : num) (a : Actor num) :
  updateAnimation delta (reindex g a)
  = {| after := reindex g (after (updateAnimation delta a));
       effects := effects (updateAnimation delta a);
       threw := threw (updateAnimation delta a) |}
  /\ performDrawCalls interp (reindex g a)
     = {| after := reindex g (after (performDrawCalls interp a));
          effects := effects (performDrawCalls interp a);
          threw := threw (performDrawCalls interp a) |}.
Proof.
  split.
  - unfold updateAnimation, reindex.
    cbn [animationManager set_animationManager animationID set_animations animations
         animationFrame deltaSum textureManager].
    destruct (truthy _); cbn [negb]; [|reflexivity].
    rewrite lookup_map.
    destruct (lookup (animations _) _) as [st|]; cbn [option_map]; [|reflexivity].
    cbn [reindex_state frames animation_textureID].
    rewrite nth_error_map, length_map.
    destruct (nth_error _ _) as [k|]; cbn [option_map]; [|reflexivity].
    cbn [animationManager set_animationManager deltaSum set_deltaSum duration
         animationFrame set_animationFrame textureManager animations animationID].
    destruct (nge _ _); [|reflexivity].
    destruct (lookup (textures _) _); reflexivity.
  - unfold performDrawCalls, reindex.
    cbn [doDraw set_animationManager].
    destruct (doDraw a); cbn [negb]; [|reflexivity].
    unfold drawTexture, drawTextureFromMap.
    cbn [animationManager set_animationManager animationID set_animations animations
         textureManager set_pos pos size set_textureManager draw isDebugEnabled].
    destruct (if truthy (textureID _) then _ else _); [|reflexivity].
    rewrite lookup_map.
    destruct (truthy (animationID _)).
    + destruct (lookup (animations _) _) as [st|]; cbn [option_map]; [|reflexivity].
      cbn [reindex_state animation_textureID].
      destruct (lookup (textures _) _); reflexivity.
    + reflexivity.
Qed.

End Reindex.

Section ActorMotion.
Import Actor.
Context {num : Type} `{NumberMath num}.
Implicit Types (a : Actor num).

(** X11.  [performUpdates] never moves an actor.  It sets the components
    of [pos] and [vel] that are smaller than [Number.EPSILON] in
    magnitude to 0, records both in [lastState], and adds
    [accel / timestep] to [vel]; this holds also when [updateAnimation]
    throws. *)
Theorem performUpdates_snapshot (timestep : num) (accel : Vector.Vector num) a :
  doUpdate a = true ->
  let a' := ticked_actor (performUpdates timestep accel a) in
  let snapped v := Vector.vec (snap (Vector.x v)) (snap (Vector.y v)) in
  pos a' = snapped (pos a)
  /\ lastState_pos a' = pos a'
  /\ lastState_vel a' = snapped (vel a)
  /\ vel a' = Vector.add (snapped (vel a)) (Vector.div accel timestep).
Proof.
  intros D. cbn zeta. unfold performUpdates. rewrite D. cbn [negb].
  match goal with |- context [updateAnimation timestep ?b] => set (a1 := b) end.
  destruct (updateAnimation_writes timestep a1) as (_ & _ & _ & _ & P & V & LP & LV & _).
  cbn zeta in *.
  destruct (threw _); cbn [ticked_actor]; rewrite P, V, LP, LV; repeat split.
Qed.

End ActorMotion.

Section ExactMotion.
Import Actor.
Local Open Scope Q_scope.
Implicit Types (a : Actor Q).



End ExactMotion.

(** Instances of the theorems on actors with hypotheses. *)

Lemma addTexture_removeTexture_witness :
  Actor.removeTexture "sheet"
    (Actor.run [Actor.call_addTexture "sheet" Samples.sheetBitmap (Some Samples.sheetOptions)]
       (Samples.sprite (num := Q)))
  = inr (true, Samples.sprite).
Proof.
  apply (addTexture_removeTexture _ _ "sheet" Samples.sheetBitmap (Some Samples.sheetOptions)).
  reflexivity.
Defined.


Lemma addAnimationState_rest_of_sheet_witness :
  exists texture,
    Actor.lookup (Actor.textures (Actor.textureManager (Samples.walker (num := Q)))) "sheet"
    = Some texture
    /\ Actor.lookup
         (Actor.animations
            (Actor.animationManager
               (Actor.run [Actor.call_addAnimationState "idle" "sheet"
                             {| Actor.options_frameCount := -1; Actor.options_startIndex := 1;
                                Actor.options_frameDuration := 200%Q;
                                Actor.options_frames := None |}]
                  Samples.walker))) "idle"
       = Some {| Actor.animation_textureID := "sheet";
                 Actor.frames :=
                   map (fun i => {| Actor.index := 1 + Z.of_nat i;
                                    Actor.duration := 200%Q |})
                     (seq 0 (Z.to_nat (Actor.frameCount texture - 1))) |}
    /\ Actor.animationID
         (Actor.animationManager
            (Actor.run [Actor.call_addAnimationState "idle" "sheet"
                          {| Actor.options_frameCount := -1; Actor.options_startIndex := 1;
                             Actor.options_frameDuration := 200%Q;
                             Actor.options_frames := None |}]
               Samples.walker))
       = Actor.animationID (Actor.animationManager Samples.walker).
Proof.
  apply (addAnimationState_rest_of_sheet Samples.walker _ "idle" "sheet"
           {| Actor.options_frameCount := -1; Actor.options_startIndex := 1;
              Actor.options_frameDuration := 200%Q; Actor.options_frames := None |} true).
  - reflexivity.
  - reflexivity.
  - reflexivity.
Defined.





Lemma removeTexture_breaks_drawing_witness :
  Actor.threw
    (Actor.performDrawCalls (1 # 2)%Q
       (Actor.run [Actor.call_removeTexture "sheet"] (Samples.walker (num := Q))))
  = true.
Proof.
  apply (removeTexture_breaks_drawing Samples.walker _ Samples.walk).
  - reflexivity.
  - reflexivity.
  - reflexivity.
  - reflexivity.
Defined.

Lemma performUpdates_snapshot_witness :
  Actor.lastState_pos
    (Actor.ticked_actor
       (Actor.performUpdates 16%Q (Vector.vec 0%Q 5%Q) (Samples.walker (num := Q))))
  = Actor.pos
      (Actor.ticked_actor (Actor.performUpdates 16%Q (Vector.vec 0%Q 5%Q) Samples.walker)).
Proof.
  refine (proj1 (proj2 (performUpdates_snapshot 16%Q (Vector.vec 0%Q 5%Q) Samples.walker _))).
  reflexivity.
Defined.



(** ** The engine: frames in every state *)

Section EngineFrames.
Import Engine.
Context {num : Type} `{Number num}.
Implicit Types (e : Engine num).

Lemma tickLoop_bound fuel : forall e c e' c' t,
  tickLoop fuel e c = Some (e', c', t) ->
  c <= c' <= Z.max (c + 1) (maxUpdatesPerFrame e)
  /\ updatesSinceEngineStart e' = updatesSinceEngineStart e + (c' - c).
Proof.
  induction fuel as [|fuel IH]; intros e c e' c' t;
    destruct (nge (lag e) (targetTickDurationMilliseconds e) && negb (isPaused e)) eqn:E.
  - cbn [tickLoop]. rewrite E. discriminate.
  - rewrite (tickLoop_exit _ _ _ E). intros Q; injection Q as <- <- <-. lia.
  - destruct (Z_lt_le_dec (c + 1) (maxUpdatesPerFrame e)) as [L|L].
    + rewrite (tickLoop_continue _ _ _ E L).
      destruct (tickLoop fuel (ticked e) (c + 1)) as [[[e1 c1] t1]|] eqn:E1; [|discriminate].
      intros Q. assert (Qe : e' = e1) by congruence. assert (Qc : c' = c1) by congruence.
      subst e' c'. clear Q. apply IH in E1.
      cbn [ticked maxUpdatesPerFrame set_updatesSinceEngineStart set_lag
           updatesSinceEngineStart] in E1. lia.
    + rewrite (tickLoop_break _ _ _ E L).
      intros Q. assert (Qe : e' = set_lag (of_Z 0) (ticked e)) by congruence.
      assert (Qc : c' = c + 1) by congruence. subst e' c'. clear Q.
      cbn [ticked set_updatesSinceEngineStart set_lag updatesSinceEngineStart]. lia.
  - rewrite (tickLoop_exit _ _ _ E). intros Q; injection Q as <- <- <-. lia.
Qed.

(** X14.  Whatever the state of the engine and the timestamp, for any
    number type (binary64 with its infinities and NaN included), a frame
    terminates, runs at most [max(1, maxUpdatesPerFrame)] ticks, and
    [updatesSinceEngineStart] grows by exactly the number of ticks run. *)
Theorem update_tick_bound (timestamp : num) e :
  exists e' t,
    update timestamp e = Some (e', t)
    /\ 0 <= tickCount t <= Z.max 1 (maxUpdatesPerFrame e)
    /\ updatesSinceEngineStart e' = updatesSinceEngineStart e + tickCount t.
Proof.
  unfold update. destruct (negb (isPreloaded e)).
  - eexists. eexists. split; [reflexivity|].
    change ([requestAnimationFrame] ++ render (of_Z 0) e)
      with (requestAnimationFrame :: [] ++ render (of_Z 0) e).
    rewrite tickCount_frame. cbn. lia.
  - match goal with |- context [tickLoop ?f ?x 0] =>
      set (e1 := x);
      destruct (tickLoop_total (update_fuel e1) e1 0) as [[[e2 c2] t2] E] end;
      [now left | lia | unfold update_fuel; rewrite Z.sub_0_r; apply Nat.le_refl |].
    rewrite E.
    eexists. eexists. split; [reflexivity|].
    change ([requestAnimationFrame] ++ t2 ++ ?r) with (requestAnimationFrame :: t2 ++ r).
    rewrite tickCount_frame.
    destruct (tickLoop_setup _ _ _ _ _ _ E) as (_ & C & _).
    destruct (tickLoop_bound _ _ _ _ _ _ E) as (B & U).
    destruct (sweep_spec e2) as (_ & S).
    destruct S as (_ & _ & _ & _ & _ & _ & _ & _ & _ & _ & _ & _ & _ & S & _).
    rewrite S, U, C. subst e1.
    cbn [maxUpdatesPerFrame updatesSinceEngineStart set_FPS set_engineRuntimeMilliseconds
         set_lag set_previousUpdateTimestamp] in *. lia.
Qed.

(** A frame of a paused engine, once preloaded. *)
Lemma update_paused (timestamp : num) e :
  isPreloaded e = true -> isPaused e = true ->
  let delta := nsub timestamp (previousUpdateTimestamp e) in
  exists e',
    update timestamp e
    = Some (e', [requestAnimationFrame;
                 render_called (ndiv (nadd (lag e) delta) (targetTickDurationMilliseconds e));
                 ctx (Canvas.setTransform (of_Z 1) (of_Z 0) (of_Z 0) (of_Z 1)
                        (of_Z 0) (of_Z 0));
                 ctx (Canvas.scale (canvasScale e) (canvasScale e))])
    /\ lag e' = nadd (lag e) delta
    /\ _engineRuntimeMilliseconds e' = nadd (_engineRuntimeMilliseconds e) delta
    /\ previousUpdateTimestamp e' = timestamp
    /\ updatesSinceEngineStart e' = updatesSinceEngineStart e
    /\ isPaused e' = true /\ isPreloaded e' = true
    /\ targetTickDurationMilliseconds e' = targetTickDurationMilliseconds e
    /\ maxUpdatesPerFrame e' = maxUpdatesPerFrame e.
Proof.
  intros P U delta. unfold update. rewrite P. cbn [negb].
  rewrite tickLoop_exit.
  2:{ cbn [isPaused _isPaused set_FPS set_engineRuntimeMilliseconds set_lag
           set_previousUpdateTimestamp]. unfold isPaused in U. rewrite U.
      apply andb_false_r. }
  eexists. split.
  - f_equal. f_equal. unfold render.
    cbn [isPreloaded _isPaused set_FPS set_engineRuntimeMilliseconds set_lag
         set_previousUpdateTimestamp lag targetTickDurationMilliseconds canvasScale].
    unfold isPaused in U. rewrite P, U. reflexivity.
  - match goal with |- context [sweep ?x] => destruct (sweep_spec x) as (_ & S) end.
    destruct S as (_ & _ & S1 & _ & _ & S2 & _ & S6 & _ & S3 & S7 & S4 & S8 & S5 & _).
    unfold isPaused. rewrite S1, S2, S3, S4, S5, S6, S7, S8. cbn. repeat split; assumption.
Qed.

(** X15.  A paused engine keeps its clock running.  A frame of a paused
    (and preloaded) engine runs no tick and draws nothing: it requests
    the next frame and resets the canvas transform.  But the frame delta
    is still added to [lag] and to the runtime, and [render] is called
    with [lag / T] computed from the grown lag. *)
Theorem paused_frame (timestamp : num) e :
  isPreloaded e = true -> isPaused e = true ->
  let delta := nsub timestamp (previousUpdateTimestamp e) in
  exists e',
    update timestamp e
    = Some (e', [requestAnimationFrame;
                 render_called (ndiv (nadd (lag e) delta) (targetTickDurationMilliseconds e));
                 ctx (Canvas.setTransform (of_Z 1) (of_Z 0) (of_Z 0) (of_Z 1)
                        (of_Z 0) (of_Z 0));
                 ctx (Canvas.scale (canvasScale e) (canvasScale e))])
    /\ lag e' = nadd (lag e) delta
    /\ _engineRuntimeMilliseconds e' = nadd (_engineRuntimeMilliseconds e) delta
    /\ previousUpdateTimestamp e' = timestamp
    /\ updatesSinceEngineStart e' = updatesSinceEngineStart e
    /\ isPaused e' = true.
Proof.
  intros P U delta.
  destruct (update_paused timestamp e P U) as (e' & Up & A & B & C & D & E & _).
  exists e'. repeat (split; [assumption|]). assumption.
Qed.

(** X16.  Before preloading has completed a frame changes none of the
    fields of the engine embedded here, whatever its timestamp: it
    requests the next frame and draws the preload screen.  In particular
    [previousUpdateTimestamp] is not advanced by any number of such
    frames. *)
Theorem preloading_frames (timestamps : list num) e :
  isPreloaded e = false ->
  run (map (fun timestamp => call_update timestamp) timestamps) e = Some e
  /\ forall timestamp,
       update timestamp e
       = Some (e, [requestAnimationFrame; render_called (of_Z 0);
                   ctx (Canvas.setTransform (of_Z 1) (of_Z 0) (of_Z 0) (of_Z 1)
                          (of_Z 0) (of_Z 0));
                   ctx (Canvas.scale (canvasScale e) (canvasScale e))]
                  ++ renderPreloadScreen e).
Proof.
  intros P.
  assert (U : forall timestamp,
             update timestamp e
             = Some (e, [requestAnimationFrame; render_called (of_Z 0);
                         ctx (Canvas.setTransform (of_Z 1) (of_Z 0) (of_Z 0) (of_Z 1)
                                (of_Z 0) (of_Z 0));
                         ctx (Canvas.scale (canvasScale e) (canvasScale e))]
                        ++ renderPreloadScreen e)).
  { intros timestamp. unfold update, render. rewrite P. cbn [negb].
    rewrite orb_true_r. now rewrite app_nil_r. }
  split; [|exact U].
  induction timestamps as [|ts l IH]; [reflexivity|].
  cbn [map run]. now rewrite U.
Qed.

(** X17.  [isStarted] is set only after the [await]: on an engine that
    has not been started, a second call of [start] made before the
    scenes have preloaded passes the guard again, requests a second
    animation frame and starts every scene a second time. *)
Theorem start_before_preload_completes (host host' : Host num) e :
  isStarted e = false ->
  exists e1 t1 e2 t2,
    start_prologue host e = inr (e1, t1)
    /\ start_prologue host' e1 = inr (e2, t2)
    /\ In requestAnimationFrame t1 /\ In requestAnimationFrame t2
    /\ forall scene, In scene (JSMap.values (scenes e)) ->
         In (scene_start (ID scene)) t1 /\ In (scene_start (ID scene)) t2.
Proof.
  intros S. unfold start_prologue. rewrite S. cbn [negb assert].
  cbn [fixDPI]. 
  eexists. eexists. eexists. eexists. split; [reflexivity|].
  cbn [isStarted set_totalActorCount set_canvasScale]. rewrite S. cbn [negb assert].
  split; [reflexivity|].
  cbn [scenes set_totalActorCount set_canvasScale].
  split; [apply in_or_app; right; apply in_or_app; left; cbn; tauto|].
  split; [apply in_or_app; right; apply in_or_app; left; cbn; tauto|].
  intros scene I.
  split; apply in_or_app; right; apply in_or_app; right;
    apply (in_map (fun scene => scene_start (ID scene))); exact I.
Qed.

End EngineFrames.

Section ExactFrames.
Import Engine.
Local Open Scope Q_scope.
Implicit Types (e : Engine Q).




End ExactFrames.

(** ** The event handler: round trips, teardown, the DOM listeners *)

Section EventHandlerMore.
Import EventHandler.
Context {num : Type}.
Implicit Types (h : EventHandler num).

(** X20.  Registering a callback that is not yet registered for a type
    and unregistering it again restores the registry of every type, and
    touches no queue. *)
Theorem register_then_unregister h t callback :
  ~ In callback (callbackRegistry h t) ->
  (forall u, callbackRegistry (unregisterEventCallback t callback
                                 (registerEventCallback t callback h)) u
             = callbackRegistry h u)
  /\ (forall u, queuedEventPayloads (unregisterEventCallback t callback
                                       (registerEventCallback t callback h)) u
                = queuedEventPayloads h u).
Proof.
  intros N. split; [|reflexivity]. intros u.
  destruct (EventType_eq_dec u t) as [->|Hne].
  - rewrite (unregister_present _ t callback (callbackRegistry h t) []).
    + apply app_nil_r.
    + unfold registerEventCallback. cbn [callbackRegistry set_callbackRegistry].
      now rewrite assign_same.
    + exact N.
  - unfold unregisterEventCallback, registerEventCallback.
    cbn [callbackRegistry set_callbackRegistry]. now rewrite !assign_other.
Qed.

(** X21.  Registering a callback a second time and unregistering it
    once removes the earlier registration, not the new one: the callback
    moves to the end of the list. *)
Theorem register_again_then_unregister h t callback (d r : list Callback) :
  callbackRegistry h t = d ++ callback :: r -> ~ In callback d ->
  callbackRegistry (unregisterEventCallback t callback
                      (registerEventCallback t callback h)) t
  = d ++ r ++ [callback].
Proof.
  intros E N.
  rewrite (unregister_present _ t callback d (r ++ [callback])); [reflexivity| |exact N].
  unfold registerEventCallback. cbn [callbackRegistry set_callbackRegistry].
  rewrite assign_same, E. unfold JSArray.push. now rewrite <- app_assoc.
Qed.

(** X22.  [destroy] empties the callback list and the queue of every
    one of the ten event types and keeps the installed predicate; a
    dispatch right after it calls nothing. *)
Theorem destroy_clears h :
  (forall t, callbackRegistry (destroy h) t = [] /\ queuedEventPayloads (destroy h) t = [])
  /\ enginePauseStateCallback (destroy h) = enginePauseStateCallback h
  /\ exists h' log,
       dispatchQueue (destroy h) = Some (h', log)
       /\ forall t calls, In (t, calls) log -> calls = [].
Proof.
  assert (A : forall t, callbackRegistry (destroy h) t = []
                        /\ queuedEventPayloads (destroy h) t = []).
  { intros t. destruct t; split; reflexivity. }
  split; [exact A|]. split; [reflexivity|].
  destruct (dispatchQueue_spec (destroy h)) as (h' & log & D & L & _).
  exists h', log. split; [exact D|]. intros t calls I. subst log.
  apply in_map_iff in I. destruct I as (u & Eq & _).
  destruct (A u) as (Ar & _). rewrite Ar in Eq. now injection Eq as _ <-.
Qed.

Lemma odd_positions_length {A : Type} (l : list A) :
  length (JSArray.odd_positions l) = (length l / 2)%nat.
Proof.
  assert (G : forall n (l : list A), (length l <= n)%nat ->
              length (JSArray.odd_positions l) = (length l / 2)%nat).
  { induction n as [|n IH]; intros [|a [|b m]] Hl; try reflexivity; cbn in Hl; try lia.
    cbn [JSArray.odd_positions length]. rewrite IH by (cbn in Hl; lia).
    change (S (S (length m))) with (1 * 2 + length m)%nat.
    rewrite Nat.div_add_l by lia. lia. }
  now apply (G (length l)).
Qed.

(** X23.  [n] dispatches in a row leave [floor(k / 2^n)] of the [k]
    payloads of an edge-triggered queue, and a level-triggered queue as
    it is: a queue of [k >= 1] payloads is empty only after
    [floor(log2 k) + 1] dispatches. *)
Theorem dispatchQueue_repeated (n : nat) : forall h,
  exists h',
    dispatchQueue_times n h = Some h'
    /\ forall t,
         if isLevelTriggered t
         then queuedEventPayloads h' t = queuedEventPayloads h t
         else length (queuedEventPayloads h' t)
              = (length (queuedEventPayloads h t) / 2 ^ n)%nat.
Proof.
  induction n as [|n IH]; intros h.
  - exists h. split; [reflexivity|]. intros t. destruct (isLevelTriggered t); [reflexivity|].
    change (2 ^ 0)%nat with 1%nat. now rewrite Nat.div_1_r.
  - destruct (dispatchQueue_spec h) as (h1 & log & D & _ & _ & Q).
    destruct (IH h1) as (h' & Dn & Qn).
    exists h'. cbn [dispatchQueue_times]. rewrite D. split; [exact Dn|].
    intros t. specialize (Qn t). specialize (Q t).
    destruct (isLevelTriggered t).
    + now rewrite Qn, Q.
    + rewrite Qn, Q, odd_positions_length.
      rewrite Nat.Div0.div_div. reflexivity.
Qed.

Lemma filter_negb_filter {A : Type} (P : A -> bool) (l : list A) :
  filter (fun a => negb (P a)) (filter P l) = [].
Proof.
  induction l as [|a l IH]; [reflexivity|]. cbn [filter].
  destruct (P a) eqn:E; [|exact IH]. cbn [filter]. now rewrite E.
Qed.

Lemma queueEvent_untouched t payload h u :
  u <> t -> u <> whilemousedown -> u <> whilekeydown ->
  queuedEventPayloads (queueEvent t payload h) u = queuedEventPayloads h u.
Proof.
  intros N1 N2 N3. unfold queueEvent.
  destruct (enginePauseStateCallback h tt); cbn [negb]; [|reflexivity].
  destruct t, u; try reflexivity; congruence.
Qed.

Lemma filter_carries_other {A : Type} (eqb : A -> A -> bool)
  (eqb_refl : forall a, eqb a a = true) (proj : Payload num -> option A)
  (q : list (Payload num)) (w : Payload num) (v : option A) :
  proj w = v -> v <> None ->
  filter (fun event => strict_ne eqb (proj event) v) (q ++ [w])
  = filter (fun event => strict_ne eqb (proj event) v) q.
Proof.
  intros <- N. rewrite filter_app. cbn [filter].
  destruct (proj w) as [a|]; [|now elim N]. cbn [strict_ne].
  rewrite eqb_refl. cbn [negb]. apply app_nil_r.
Qed.

(** X24.  On a handler that accepts events, the listener for
    [mousedown] followed by the one for [mouseup] with the same button
    queues one [onmousedown] and one [onmouseup] payload with the
    coordinates of the events, and leaves in [whilemousedown] the
    earlier entries for other buttons only: the release also drops
    entries of earlier presses of that button.  Likewise for [keydown]
    and [keyup] with the same key. *)
Theorem press_then_release h (press release : MouseEvent num)
  (keyPress keyRelease : KeyboardEvent) :
  enginePauseStateCallback h tt = true ->
  event_button release = event_button press ->
  event_key keyRelease = event_key keyPress ->
  let clicked := canvasEventHandler (mouseup release) (canvasEventHandler (mousedown press) h) in
  let typed := canvasEventHandler (keyup keyRelease) (canvasEventHandler (keydown keyPress) h) in
  queuedEventPayloads clicked whilemousedown
  = filter (fun event => negb (carriesButton (event_button press) event))
      (queuedEventPayloads h whilemousedown)
  /\ queuedEventPayloads clicked onmousedown
     = queuedEventPayloads h onmousedown ++ [mousePayload onmousedown press]
  /\ queuedEventPayloads clicked onmouseup
     = queuedEventPayloads h onmouseup ++ [mousePayload onmouseup release]
  /\ queuedEventPayloads typed whilekeydown
     = filter (fun event => negb (carriesKey (event_key keyPress) event))
         (queuedEventPayloads h whilekeydown)
  /\ held (event_key keyPress) (queuedEventPayloads typed whilekeydown) = 0%nat.
Proof.
  intros E Eb Ek clicked typed. subst clicked typed. unfold canvasEventHandler.
  assert (E1 : forall t p, enginePauseStateCallback (queueEvent t p h) tt = true).
  { intros t p. now rewrite queueEvent_accepting. }
  split; [|split; [|split; [|split]]].
  - rewrite queueEvent_mouseup by apply E1.
    destruct (queueEvent_mousedown h (mousePayload onmousedown press) E) as (_ & ->).
    cbn [mousePayload button]. rewrite Eb.
    rewrite (filter_carries_other Z.eqb Z.eqb_refl button); [| reflexivity | discriminate].
    apply filter_ext. intros event. unfold carriesButton. now rewrite negb_involutive.
  - rewrite queueEvent_untouched by discriminate.
    now destruct (queueEvent_mousedown h (mousePayload onmousedown press) E) as (-> & _).
  - rewrite queueEvent_running by apply E1.
    now rewrite queueEvent_untouched by discriminate.
  - rewrite queueEvent_keyup by apply E1.
    destruct (queueEvent_keydown h (keyPayload onkeydown keyPress) E) as (_ & ->).
    cbn [keyPayload key]. rewrite Ek.
    rewrite (filter_carries_other String.eqb String.eqb_refl key);
      [| reflexivity | discriminate].
    apply filter_ext. intros event. unfold carriesKey. now rewrite negb_involutive.
  - rewrite queueEvent_keyup by apply E1.
    destruct (queueEvent_keydown h (keyPayload onkeydown keyPress) E) as (_ & ->).
    cbn [keyPayload key]. rewrite Ek.
    rewrite (filter_carries_other String.eqb String.eqb_refl key);
      [| reflexivity | discriminate].
    unfold held, carriesKey.
    now rewrite (filter_negb_filter
                   (fun event => strict_ne String.eqb (key event) (Some (event_key keyPress)))).
Qed.

End EventHandlerMore.

(** Instances of the theorems on the engine and the event handler with
    hypotheses. *)

Lemma paused_frame_witness :
  exists e',
    Engine.update 50%Q (Samples.paused (num := Q))
    = Some (e', [Engine.requestAnimationFrame;
                 Engine.render_called ((0 + (50 - 0)) / (1000 / 60))%Q;
                 Engine.ctx (Canvas.setTransform 1%Q 0%Q 0%Q 1%Q 0%Q 0%Q);
                 Engine.ctx (Canvas.scale 1%Q 1%Q)])
    /\ Engine.lag e' = (0 + (50 - 0))%Q
    /\ Engine._engineRuntimeMilliseconds e' = (0 + (50 - 0))%Q
    /\ Engine.previousUpdateTimestamp e' = 50%Q
    /\ Engine.updatesSinceEngineStart e' = 0
    /\ Engine.isPaused e' = true.
Proof.
  exact (paused_frame 50%Q Samples.paused eq_refl eq_refl).
Defined.

Lemma preloading_frames_witness :
  Engine.run [Engine.call_update 16%Q; Engine.call_update 33%Q] (Samples.created (num := Q))
  = Some Samples.created.
Proof.
  refine (proj1 (preloading_frames [16%Q; 33%Q] Samples.created _)).
  reflexivity.
Defined.

Lemma start_before_preload_completes_witness :
  exists e1 t1 e2 t2,
    Engine.start_prologue Samples.host (Samples.created (num := Q)) = inr (e1, t1)
    /\ Engine.start_prologue Samples.host e1 = inr (e2, t2)
    /\ In Engine.requestAnimationFrame t1 /\ In Engine.requestAnimationFrame t2
    /\ forall scene, In scene (JSMap.values (Engine.scenes Samples.created)) ->
         In (Engine.scene_start (Engine.ID scene)) t1
         /\ In (Engine.scene_start (Engine.ID scene)) t2.
Proof.
  apply (start_before_preload_completes Samples.host Samples.host Samples.created).
  reflexivity.
Defined.



Lemma register_then_unregister_witness :
  EventHandler.callbackRegistry
    (EventHandler.unregisterEventCallback EventHandler.ontick 3%nat
       (EventHandler.registerEventCallback EventHandler.ontick 3%nat
          (Samples.two_callbacks (num := Q))))
    EventHandler.ontick
  = [1%nat; 2%nat].
Proof.
  refine (proj1 (register_then_unregister Samples.two_callbacks EventHandler.ontick 3%nat _)
            EventHandler.ontick).
  cbn. intros [D | [D | []]]; discriminate D.
Defined.

Lemma register_again_then_unregister_witness :
  EventHandler.callbackRegistry
    (EventHandler.unregisterEventCallback EventHandler.ontick 1%nat
       (EventHandler.registerEventCallback EventHandler.ontick 1%nat
          (Samples.two_callbacks (num := Q))))
    EventHandler.ontick
  = [2%nat; 1%nat].
Proof.
  apply (register_again_then_unregister Samples.two_callbacks EventHandler.ontick 1%nat
           [] [2%nat]).
  - reflexivity.
  - intros [].
Defined.

Lemma press_then_release_witness :
  EventHandler.queuedEventPayloads
    (EventHandler.canvasEventHandler
       (EventHandler.mouseup {| EventHandler.event_button := 0; EventHandler.offsetX := 12%Q; EventHandler.offsetY := 8%Q |})
       (EventHandler.canvasEventHandler
          (EventHandler.mousedown {| EventHandler.event_button := 0; EventHandler.offsetX := 10%Q; EventHandler.offsetY := 8%Q |})
          Samples.listening))
    EventHandler.whilemousedown
  = [].
Proof.
  refine (proj1 (press_then_release Samples.listening
                   {| EventHandler.event_button := 0; EventHandler.offsetX := 10%Q; EventHandler.offsetY := 8%Q |}
                   {| EventHandler.event_button := 0; EventHandler.offsetX := 12%Q; EventHandler.offsetY := 8%Q |}
                   {| EventHandler.event_key := "a" |} {| EventHandler.event_key := "a" |} _ _ _)).
  - reflexivity.
  - reflexivity.
  - reflexivity.
Defined.

(** ** The parameter GUI: sections and parameters *)

Section GUIFacts.
Import GUI.
Implicit Types (s : ParameterSection).

Lemma findIndex_from_absent {A : Type} (p : A -> bool) (a : list A) (i : Z) :
  find p a = None -> findIndex_from p a i = -1.
Proof.
  revert i. induction a as [|h t IH]; intros i; [reflexivity|].
  cbn [find findIndex_from]. destruct (p h); [discriminate | apply IH].
Qed.

Lemma findIndex_from_first {A : Type} (p : A -> bool) (d r : list A) (w : A) (i : Z) :
  find p d = None -> p w = true ->
  findIndex_from p (d ++ w :: r) i = i + Z.of_nat (length d).
Proof.
  revert i. induction d as [|h t IH]; intros i N W.
  - cbn. rewrite W. lia.
  - cbn [find] in N. cbn [app findIndex_from length].
    destruct (p h); [discriminate|]. rewrite IH by assumption. lia.
Qed.

Lemma find_app_absent {A : Type} (p : A -> bool) (d r : list A) :
  find p d = None -> find p (d ++ r) = find p r.
Proof.
  induction d as [|h t IH]; [reflexivity|]. cbn [find app].
  destruct (p h); [discriminate | exact IH].
Qed.

Lemma set_subsections_same s : set_subsections (subsections s) s = s.
Proof. now destruct s. Qed.

Lemma set_parameters_same s : set_parameters (parameters s) s = s.
Proof. now destruct s. Qed.

Lemma removeSubsection_missing s (name : string) :
  find (fun section => String.eqb (GUI.name section) name) (subsections s) = None ->
  removeSubsection name s = (false, s).
Proof.
  intros N. unfold removeSubsection, findIndex.
  now rewrite findIndex_from_absent.
Qed.

Lemma removeSubsection_found s (name : string) (d r : list ParameterSection)
  (section : ParameterSection) :
  subsections s = d ++ section :: r -> GUI.name section = name ->
  find (fun section => String.eqb (GUI.name section) name) d = None ->
  removeSubsection name s = (true, set_subsections (d ++ r) s).
Proof.
  intros E W N. unfold removeSubsection, findIndex. rewrite E.
  rewrite findIndex_from_first; [| exact N | now rewrite W, String.eqb_refl].
  destruct (0 + Z.of_nat (length d) =? -1) eqn:C; [apply Z.eqb_eq in C; lia|].
  rewrite Z.add_0_l. now rewrite splice_at.
Qed.

(** X26.  [removeSubsection] removes the first subsection of the given
    name and nothing else, and on a name that no subsection bears it
    answers [false] and leaves the section as it is. *)
Theorem removeSubsection_first_or_nothing s (name : string) :
  (find (fun section => String.eqb (GUI.name section) name) (subsections s) = None ->
   removeSubsection name s = (false, s))
  /\ (forall (d r : list ParameterSection) (section : ParameterSection),
        subsections s = d ++ section :: r -> GUI.name section = name ->
        find (fun section => String.eqb (GUI.name section) name) d = None ->
        removeSubsection name s = (true, set_subsections (d ++ r) s)).
Proof.
  split.
  - apply removeSubsection_missing.
  - intros d r section. apply removeSubsection_found.
Qed.

(** X25.  A subsection that [addSubsection] has created is the one that
    [getSubsectionByTitle] finds under its name, and removing it by name
    answers [true] and restores the section exactly. *)
Theorem addSubsection_removeSubsection s s' (name : string) (isCollapsed : option bool)
  (section : ParameterSection) :
  addSubsection name isCollapsed s = inr (section, s') ->
  removeSubsection name s' = (true, s)
  /\ getSubsectionByTitle name s' = inr section.
Proof.
  unfold addSubsection, Engine.assert.
  destruct (find _ (subsections s)) as [x|] eqn:N; [discriminate|].
  intros [= <- <-]. split.
  - rewrite (removeSubsection_found _ name (subsections s) []
               (new_ParameterSection name isCollapsed)).
    + cbn [set_subsections GUI.name GUI.isCollapsed parameters].
      rewrite app_nil_r. now destruct s.
    + reflexivity.
    + reflexivity.
    + exact N.
  - unfold getSubsectionByTitle. cbn [subsections set_subsections]. unfold JSArray.push.
    rewrite find_app_absent by exact N. cbn [find new_ParameterSection GUI.name].
    now rewrite String.eqb_refl.
Qed.

(** X27.  A parameter that [addParameter] has added is removed again by
    [removeParameter], which answers [true] and restores the section
    exactly. *)
Theorem addParameter_removeParameter s s' (name : string) (callback : Callback) :
  addParameter name callback s = inr s' ->
  removeParameter name s' = (true, s).
Proof.
  unfold addParameter, Engine.assert.
  destruct (JSMap.has name (parameters s)) eqn:E; cbn [negb]; [discriminate|].
  intros [= <-]. unfold removeParameter. cbn [parameters set_parameters].
  rewrite lookup_has in E |- *. rewrite lookup_set_same. cbn [Actor.isSome].
  rewrite delete_set_absent.
  - cbn [GUI.name GUI.isCollapsed subsections]. now destruct s.
  - now destruct (Actor.lookup (parameters s) name).
Qed.

Lemma removeParameter_absent s (name : string) :
  JSMap.has name (parameters s) = false -> removeParameter name s = (false, s).
Proof.
  intros E. unfold removeParameter. rewrite E. rewrite lookup_has in E.
  rewrite delete_absent by now destruct (Actor.lookup (parameters s) name).
  now rewrite set_parameters_same.
Qed.

Lemma find_none_names (l : list ParameterSection) (n : string) :
  find (fun section => String.eqb (GUI.name section) n) l = None ->
  ~ In n (map GUI.name l).
Proof.
  induction l as [|h t IH]; [intros _ []|]. cbn [find map In].
  destruct (String.eqb_spec (GUI.name h) n) as [E|E]; [discriminate|].
  intros N [F|F]; [contradiction | now apply IH].
Qed.

Lemma find_some_split (l : list ParameterSection) (n : string) x :
  find (fun section => String.eqb (GUI.name section) n) l = Some x ->
  exists d r, l = d ++ x :: r /\ GUI.name x = n
    /\ find (fun section => String.eqb (GUI.name section) n) d = None.
Proof.
  induction l as [|h t IH]; [discriminate|]. cbn [find].
  destruct (String.eqb_spec (GUI.name h) n) as [E|E].
  - intros [= <-]. exists [], t. now repeat split.
  - intros F. destruct (IH F) as (d & r & -> & W & N). exists (h :: d), r.
    split; [reflexivity|]. split; [exact W|]. cbn [find].
    destruct (String.eqb_spec (GUI.name h) n); [contradiction | exact N].
Qed.

Lemma call_unique c s :
  NoDup (map GUI.name (subsections s)) ->
  NoDup (map GUI.name (subsections (call c s))).
Proof.
  intros Ns. destruct c as [n cb | n | n c | n |]; cbn [call].
  - unfold addParameter, Engine.assert. now destruct (negb _).
  - exact Ns.
  - unfold addSubsection, Engine.assert.
    destruct (find _ (subsections s)) as [x|] eqn:N; [exact Ns|].
    cbn [subsections set_subsections]. unfold JSArray.push. rewrite map_app.
    cbn [map new_ParameterSection GUI.name].
    apply NoDup_app; [exact Ns | constructor; [intros [] | constructor] |].
    intros a Ia [<-|[]]. now apply find_none_names in N.
  - destruct (find (fun section => String.eqb (GUI.name section) n) (subsections s))
      as [x|] eqn:N.
    + destruct (find_some_split _ _ _ N) as (d & r & E & W & Nd).
      rewrite (removeSubsection_found s n d r x E W Nd). cbn [snd subsections set_subsections].
      rewrite E, map_app in Ns. cbn [map] in Ns. rewrite map_app.
      now apply NoDup_remove_1 in Ns.
    + now rewrite removeSubsection_missing.
  - constructor.
Qed.

(** X28.  The names of the subsections of a section stay pairwise
    different, whichever of [addParameter], [removeParameter],
    [addSubsection], [removeSubsection] and [clear] are called on it
    after its construction, and whether they return or throw. *)
Theorem subsection_names_unique (name : string) (isCollapsed : option bool)
  (calls : list Call) :
  NoDup (map GUI.name (subsections (run calls (new_ParameterSection name isCollapsed)))).
Proof.
  assert (G : forall s, NoDup (map GUI.name (subsections s)) ->
                        NoDup (map GUI.name (subsections (run calls s)))).
  { induction calls as [|c l IH]; intros s Ns; [exact Ns|].
    cbn [run]. apply IH. now apply call_unique. }
  apply G. constructor.
Qed.

End GUIFacts.

Lemma addSubsection_removeSubsection_witness :
  GUI.removeSubsection "physics"
    (GUI.run [GUI.call_addSubsection "physics" None] (GUI.new_ParameterSection "Engine" None))
  = (true, GUI.new_ParameterSection "Engine" None)
  /\ GUI.getSubsectionByTitle "physics"
       (GUI.run [GUI.call_addSubsection "physics" None]
          (GUI.new_ParameterSection "Engine" None))
     = inr (GUI.new_ParameterSection "physics" None).
Proof.
  apply (addSubsection_removeSubsection (GUI.new_ParameterSection "Engine" None) _
           "physics" None).
  reflexivity.
Defined.

Lemma removeSubsection_first_or_nothing_witness :
  GUI.removeSubsection "physics" (GUI.new_ParameterSection "Engine" None)
  = (false, GUI.new_ParameterSection "Engine" None).
Proof.
  apply (proj1 (removeSubsection_first_or_nothing
                  (GUI.new_ParameterSection "Engine" None) "physics")).
  reflexivity.
Defined.

Lemma addParameter_removeParameter_witness :
  GUI.removeParameter "FPS"
    (GUI.run [GUI.call_addParameter "FPS" 0%nat] (GUI.new_ParameterSection "Engine" None))
  = (true, GUI.new_ParameterSection "Engine" None).
Proof.
  apply (addParameter_removeParameter (GUI.new_ParameterSection "Engine" None) _
           "FPS" 0%nat).
  reflexivity.
Defined.
